(** * openshift_adm_migrate_template_instances

    A shallow embedding of [plugins/modules/openshift_adm_migrate_template_instances.py]
    and the properties of its migration pass.

    The module lists the TemplateInstances of a cluster (of one namespace, or
    of all of them), rewrites the [apiVersion] of the object references in
    their status according to the [transforms] table and patches the status
    subresource of the instances it rewrote.

    Python dictionaries with a fixed shape are records; a key the code reads
    with a subscript is a plain field, a key it reads with [.get] is an
    [option].  The [transforms] dictionary is a [gmap].  The calls to the
    cluster are methods of a [Resource] interface that thread the state of
    the cluster, and [fail_json] and uncaught exceptions end a run early. *)

From Stdlib Require Import ZArith.
From stdpp Require Import gmap strings list fin_maps.

Local Open Scope string_scope.
Local Open Scope list_scope.

(** ** Data model *)

(** The parts of a document that the module never looks into. *)
#[warnings="-register-all"]
Inductive json : Type :=
| JNull
| JBool (b : bool)
| JNum (z : Z)
| JStr (s : string)
| JList (l : list json)
| JDict (kv : list (string * json)).

(** [obj['ref']]: the reference to an object that a template created. *)
Record ObjectReference : Type := {
  kind : string;
  apiVersion : string;
  name : string;
  namespace : string;
  uid : string
}.

(** An entry of [status.objects]: a dictionary with the single key [ref]. *)
Record TemplateInstanceObject : Type := { ref : ObjectReference }.

(** [ti['status']]; [objects] is read with [.get] and may be missing. *)
Record TemplateInstanceStatus : Type := {
  conditions : json;
  objects : option (list TemplateInstanceObject)
}.

Record ObjectMeta : Type := {
  meta_name : string;
  meta_namespace : string;
  resourceVersion : string;
  meta_rest : json
}.

Record TemplateInstance : Type := {
  ti_apiVersion : string;
  ti_kind : string;
  metadata : ObjectMeta;
  spec : json;
  status : TemplateInstanceStatus
}.

(** The dictionary of a list call; the module reads its [items]. *)
Record TemplateInstanceList : Type := { items : list TemplateInstance }.

(** [results['result']] starts as the empty list and is overwritten with the
    dictionary that a patch returns. *)
Inductive ResultValue : Type :=
| EmptyList
| Body (ti : TemplateInstance).

Record Results : Type := { changed : bool; result : ResultValue }.

(** ** The transform table *)

Definition transforms : gmap string string :=
  <["Build" := "build.openshift.io/v1.Build"]>
  (<["BuildConfig" := "build.openshift.io/v1.BuildConfig"]>
  (<["DeploymentConfig" := "apps.openshift.io/v1.DeploymentConfig"]>
  (<["Route" := "route.openshift.io/v1.Route"]> ∅))).

(** ** Exceptions, failures and outcomes *)

(** What a call to the cluster can raise.  [exc_text] is what [to_native]
    makes of the exception. *)
Inductive Exception : Type :=
| DynamicApiError (exc_body : string) (exc_status : Z) (exc_reason : string)
                  (exc_text : string)
| OtherException (exc_text : string).

Definition to_native (exc : Exception) : string :=
  match exc with
  | DynamicApiError _ _ _ t => t
  | OtherException t => t
  end.

(** A keyword argument of [fail_json]: an integer or a string. *)
Inductive FailValue : Type :=
| FInt (z : Z)
| FStr (s : string).

(** The keyword arguments of a [fail_json] call. *)
Record Failure : Type := {
  msg : string;
  error : option FailValue;
  fail_status : option FailValue;
  reason : option FailValue
}.

(** How a run ends: it goes on with a value, it stops in [fail_json], or an
    exception that nothing catches leaves the module. *)
Inductive Outcome (A : Type) : Type :=
| Returned (a : A)
| FailJson (f : Failure)
| Raised (exc : Exception).

Arguments Returned {A} a.
Arguments FailJson {A} f.
Arguments Raised {A} exc.

(** ** The cluster *)

(** The calls a run makes, with what the cluster answered. *)
Inductive Call : Type :=
| ListCall (ns : option string) (reply : Exception + TemplateInstanceList)
| PatchCall (body : TemplateInstance) (reply : Exception + TemplateInstance).

(** [resource]: the handle that [find_resource] returns, with the two
    methods the module uses; [get None] is [resource.get()].  A method
    answers with an exception or a document and leaves the cluster in a new
    state. *)
Record Resource (Cluster : Type) : Type := {
  get : option string -> Cluster -> (Exception + TemplateInstanceList) * Cluster;
  status_patch : TemplateInstance -> Cluster -> (Exception + TemplateInstance) * Cluster
}.

Arguments get {Cluster} r ns c.
Arguments status_patch {Cluster} r body c.

(** The state a run threads: the cluster and the calls made so far. *)
Record World (Cluster : Type) : Type := {
  cluster : Cluster;
  calls : list Call
}.

Arguments cluster {Cluster} w.
Arguments calls {Cluster} w.
Arguments Build_World {Cluster} cluster calls.

(** [self]: the parameters of the module, its check mode, and the
    [find_resource] it inherits, called with [fail=True]: it hands out the
    resource or has already called [fail_json]. *)
Record Self (Cluster : Type) : Type := {
  params_namespace : option string;
  check_mode : bool;
  find_resource : string -> string -> Failure + Resource Cluster
}.

Arguments params_namespace {Cluster} s.
Arguments check_mode {Cluster} s.
Arguments find_resource {Cluster} s kind api_version.

Definition set_changed (b : bool) (results : Results) : Results :=
  {| changed := b; result := result results |}.

Definition set_result (r : ResultValue) (results : Results) : Results :=
  {| changed := changed results; result := r |}.

Definition set_ref_apiVersion (v : string) (obj : TemplateInstanceObject)
  : TemplateInstanceObject :=
  {| ref := {| kind := kind (ref obj); apiVersion := v; name := name (ref obj);
               namespace := namespace (ref obj); uid := uid (ref obj) |} |}.

Definition with_objects (objs : option (list TemplateInstanceObject))
  (ti : TemplateInstance) : TemplateInstance :=
  {| ti_apiVersion := ti_apiVersion ti; ti_kind := ti_kind ti;
     metadata := metadata ti; spec := spec ti;
     status := {| conditions := conditions (status ti); objects := objs |} |}.

(** [ti['status']['objects'][i]['ref']['apiVersion'] = v] *)
Definition set_object_apiVersion (i : nat) (v : string) (ti : TemplateInstance)
  : TemplateInstance :=
  with_objects (alter (set_ref_apiVersion v) i <$> objects (status ti)) ti.

(** Truth value of [objects] in [if objects:]: [None] and the empty list
    are false. *)
Definition truthy_objects (objs : option (list TemplateInstanceObject)) : bool :=
  match objs with
  | Some (_ :: _) => true
  | _ => false
  end.

(** Truth value of [namespace] in [if namespace:]: [None] and the empty
    string are false. *)
Definition truthy_namespace (ns : option string) : bool :=
  match ns with
  | Some (String _ _) => true
  | _ => false
  end.

Section Run.

Context {Cluster : Type}.

(** ** The monad of a run *)

Definition M (A : Type) : Type := World Cluster -> Outcome A * World Cluster.

Definition ret {A} (a : A) : M A := fun w => (Returned a, w).

Definition bind {A B} (m : M A) (k : A -> M B) : M B :=
  fun w =>
    match m w with
    | (Returned a, w') => k a w'
    | (FailJson f, w') => (FailJson f, w')
    | (Raised exc, w') => (Raised exc, w')
    end.

Definition fail_json {A} (f : Failure) : M A := fun w => (FailJson f, w).

Definition raise {A} (exc : Exception) : M A := fun w => (Raised exc, w).

#[global] Instance M_ret : MRet M := @ret.
#[global] Instance M_bind : MBind M := fun A B k m => bind m k.

(** [resource.status.patch(body)], with the exception it may raise
    handed to the caller. *)
Definition call_status_patch (resource : Resource Cluster)
  (body : TemplateInstance) : M (Exception + TemplateInstance) :=
  fun w =>
    let '(reply, c) := status_patch resource body (cluster w) in
    (Returned reply, Build_World c (calls w ++ [PatchCall body reply])).

(** [resource.get(namespace=ns).to_dict()], likewise. *)
Definition call_get (resource : Resource Cluster) (ns : option string)
  : M (Exception + TemplateInstanceList) :=
  fun w =>
    let '(reply, c) := get resource ns (cluster w) in
    (Returned reply, Build_World c (calls w ++ [ListCall ns reply])).

(** A loop over a list that threads a state and stops at the first
    iteration that ends the run. *)
Fixpoint for_each {A S} (body : A -> S -> M S) (l : list A) (s : S) : M S :=
  match l with
  | [] => ret s
  | x :: l' => s' ← body x s; for_each body l' s'
  end.

(** ** The module *)

Definition patch_template_instance (resource : Resource Cluster)
  (templateinstance : TemplateInstance) : M TemplateInstance :=
  reply ← call_status_patch resource templateinstance;
  match reply with
  | inr result => ret result
  | inl exc =>
      fail_json
        {| msg := "Failed to migrate TemplateInstance "
                  +:+ meta_name (metadata templateinstance)
                  +:+ " due to: " +:+ to_native exc;
           error := None; fail_status := None; reason := None |}
  end.

(** The body of [for i, obj in enumerate(objects)].  The state is the
    instance [ti], which the loop changes in place, and [results]; [obj]
    is the entry of the instance at index [i]. *)
Definition migrate_object (self : Self Cluster) (resource : Resource Cluster)
  (i : nat) (st : TemplateInstance * Results)
  : M (TemplateInstance * Results) :=
  let '(ti, results) := st in
  match objects (status ti) ≫= (.!! i) with
  | None => ret st
  | Some obj =>
      let object_type := kind (ref obj) in
      match transforms !! object_type with
      | Some target =>
          if bool_decide (apiVersion (ref obj) ≠ target) then
            let ti := set_object_apiVersion i target ti in
            results ←
              (if check_mode self then ret results
               else
                 body ← patch_template_instance resource ti;
                 ret (set_result (Body body) results));
            ret (ti, set_changed true results)
          else ret st
      | None => ret st
      end
  end.

(** The body of [for ti in templateinstances.get('items')]. *)
Definition migrate_instance (self : Self Cluster) (resource : Resource Cluster)
  (ti : TemplateInstance) (results : Results)
  : M (TemplateInstance * Results) :=
  let objs := objects (status ti) in
  if truthy_objects objs then
    for_each (migrate_object self resource)
      (seq 0 (length (default [] objs))) (ti, results)
  else ret (ti, results).

(** The outer loop; the instances it has visited are returned in the
    state the loop left them in. *)
Fixpoint migrate_items (self : Self Cluster) (resource : Resource Cluster)
  (tis : list TemplateInstance) (results : Results)
  : M (list TemplateInstance * Results) :=
  match tis with
  | [] => ret ([], results)
  | ti :: tis' =>
      '(ti', results) ← migrate_instance self resource ti results;
      '(tis'', results) ← migrate_items self resource tis' results;
      ret (ti' :: tis'', results)
  end.

(** [perform_migrations] returns [results]; the second component is the
    argument [templateinstances] as the call leaves it. *)
Definition perform_migrations (self : Self Cluster)
  (resource : Resource Cluster) (templateinstances : TemplateInstanceList)
  : M (Results * TemplateInstanceList) :=
  let changed := false in
  let results := {| changed := changed; result := EmptyList |} in
  '(tis, results) ← migrate_items self resource (items templateinstances) results;
  ret (results, {| items := tis |}).

(** The listing of [execute_module]: with a namespace the call is inside
    a [try] with two handlers, without one it is not. *)
Definition retrieve (self : Self Cluster) (resource : Resource Cluster)
  : M TemplateInstanceList :=
  let namespace := params_namespace self in
  if truthy_namespace namespace then
    reply ← call_get resource namespace;
    match reply with
    | inr templateinstances => ret templateinstances
    | inl (DynamicApiError exc_body exc_status exc_reason _) =>
        fail_json
          {| msg := "Failed to retrieve TemplateInstances in namespace '"
                    +:+ default "" namespace +:+ "': " +:+ exc_body;
             error := Some (FInt exc_status);
             fail_status := Some (FInt exc_status);
             reason := Some (FStr exc_reason) |}
    | inl exc =>
        fail_json
          {| msg := "Failed to retrieve TemplateInstances in namespace '"
                    +:+ default "" namespace +:+ "': " +:+ to_native exc;
             error := Some (FStr "");
             fail_status := Some (FStr "");
             reason := Some (FStr "") |}
    end
  else
    reply ← call_get resource None;
    match reply with
    | inr templateinstances => ret templateinstances
    | inl exc => raise exc
    end.

(** [execute_module] ends in [exit_json] with the keys of [results]: the
    run returns [results]. *)
Definition execute_module (self : Self Cluster) : M Results :=
  resource ←
    match find_resource self "templateinstances" "template.openshift.io/v1" with
    | inr resource => ret resource
    | inl f => fail_json f
    end;
  templateinstances ← retrieve self resource;
  '(results, _) ← perform_migrations self resource templateinstances;
  ret results.

End Run.

(** ** What a pass does, reference by reference *)

(** The test of the inner loop: the kind is a key of [transforms] and the
    [apiVersion] is not the one of the table. *)
Definition stale (obj : TemplateInstanceObject) : bool :=
  match transforms !! kind (ref obj) with
  | Some target => bool_decide (apiVersion (ref obj) ≠ target)
  | None => false
  end.

(** The entry as the inner loop leaves it. *)
Definition migrated (obj : TemplateInstanceObject) : TemplateInstanceObject :=
  match transforms !! kind (ref obj) with
  | Some target =>
      if bool_decide (apiVersion (ref obj) ≠ target)
      then set_ref_apiVersion target obj else obj
  | None => obj
  end.

(** The instance as the outer loop leaves it. *)
Definition migrated_instance (ti : TemplateInstance) : TemplateInstance :=
  match objects (status ti) with
  | Some (obj :: objs) => with_objects (Some (migrated <$> obj :: objs)) ti
  | _ => ti
  end.

Definition has_stale (ti : TemplateInstance) : bool :=
  existsb stale (default [] (objects (status ti))).

(** The bodies the inner loop hands to [patch_template_instance] for an
    instance whose entries [pre] are behind the loop and [suf] ahead: one for
    each stale entry, with the entries up to it rewritten. *)
Fixpoint bodies_from (ti : TemplateInstance)
  (pre suf : list TemplateInstanceObject) : list TemplateInstance :=
  match suf with
  | [] => []
  | obj :: suf' =>
      (if stale obj
       then [with_objects (Some (pre ++ migrated obj :: suf')) ti] else [])
      ++ bodies_from ti (pre ++ [migrated obj]) suf'
  end.

Definition instance_bodies (ti : TemplateInstance) : list TemplateInstance :=
  bodies_from ti [] (default [] (objects (status ti))).

(** The bodies of the patch calls in a log, and the answer to the last of
    them, with [d] when there is none. *)
Definition patch_bodies (cs : list Call) : list TemplateInstance :=
  omap (fun c => match c with PatchCall b _ => Some b | _ => None end) cs.

Definition list_calls (cs : list Call) : list (option string) :=
  omap (fun c => match c with ListCall ns _ => Some ns | _ => None end) cs.

(** The call is a patch that the cluster answered with a body. *)
Definition patch_answered (c : Call) : Prop :=
  match c with
  | PatchCall _ (inr _) => True
  | _ => False
  end.

Definition last_answer (cs : list Call) (d : ResultValue) : ResultValue :=
  foldl (fun r c => match c with PatchCall _ (inr b) => Body b | _ => r end) d cs.

(** An entry is as it was or as the loop leaves it. *)
Definition kept_or_migrated (obj obj' : TemplateInstanceObject) : Prop :=
  obj' = obj \/ obj' = migrated obj.

(** Truth value of a list. *)
Definition nonempty {A} (l : list A) : bool :=
  match l with [] => false | _ => true end.

(** The bodies of a run, instance after instance. *)
Definition all_bodies (templateinstances : TemplateInstanceList)
  : list TemplateInstance :=
  concat (instance_bodies <$> items templateinstances).

(** [results] at the start of [perform_migrations]. *)
Definition initial_results : Results :=
  {| changed := false; result := EmptyList |}.

Section Sending.

Context {Cluster : Type}.

(** What the branch of the inner loop does with the bodies it is given,
    one after the other. *)
Fixpoint send_all (self : Self Cluster) (resource : Resource Cluster)
  (bodies : list TemplateInstance) (results : Results) : M Results :=
  match bodies with
  | [] => ret results
  | b :: bs =>
      results ←
        (if check_mode self then ret results
         else
           body ← patch_template_instance resource b;
           ret (set_result (Body body) results));
      send_all self resource bs (set_changed true results)
  end.

End Sending.

(** ** Two clusters to run the module on *)

(** A cluster that stores its instances in a list.  A list call filters by
    namespace; a status patch replaces the status of the stored instance of
    the same name and namespace and gives it a new resource version. *)
Definition same_instance (a b : TemplateInstance) : bool :=
  bool_decide (meta_name (metadata a) = meta_name (metadata b))
  && bool_decide (meta_namespace (metadata a) = meta_namespace (metadata b)).

Definition store_patched (body stored : TemplateInstance) : TemplateInstance :=
  {| ti_apiVersion := ti_apiVersion stored; ti_kind := ti_kind stored;
     metadata := {| meta_name := meta_name (metadata stored);
                    meta_namespace := meta_namespace (metadata stored);
                    resourceVersion := resourceVersion (metadata stored) +:+ "+";
                    meta_rest := meta_rest (metadata stored) |};
     spec := spec stored;
     status := status body |}.

Definition store_resource : Resource (list TemplateInstance) :=
  {| get ns c :=
       (inr {| items :=
                 List.filter
                   (fun ti => match ns with
                              | Some n =>
                                  bool_decide (meta_namespace (metadata ti) = n)
                              | None => true
                              end) c |}, c);
     status_patch body c :=
       match list_find (fun ti => same_instance body ti = true) c with
       | Some (i, stored) =>
           (inr (store_patched body stored), <[i := store_patched body stored]> c)
       | None =>
           (inl (DynamicApiError "not found" 404 "Not Found" "404 Not Found"), c)
       end |}.

(** A cluster that refuses every call. *)
Definition forbidden : Exception :=
  DynamicApiError "forbidden" 403 "Forbidden" "403 Forbidden".

Definition refusing_resource : Resource unit :=
  {| get _ c := (inl forbidden, c);
     status_patch _ c := (inl forbidden, c) |}.

Definition module_self {Cluster} (resource : Resource Cluster)
  (ns : option string) (check : bool) : Self Cluster :=
  {| params_namespace := ns; check_mode := check;
     find_resource _ _ := inr resource |}.

Definition object_of (k v n : string) : TemplateInstanceObject :=
  {| ref := {| kind := k; apiVersion := v; name := n; namespace := "test";
               uid := "uid-" +:+ n |} |}.

Definition instance_of (n ns : string)
  (objs : option (list TemplateInstanceObject)) : TemplateInstance :=
  {| ti_apiVersion := "template.openshift.io/v1"; ti_kind := "TemplateInstance";
     metadata := {| meta_name := n; meta_namespace := ns;
                    resourceVersion := "1"; meta_rest := JNull |};
     spec := JDict [("requester", JDict [("username", JStr "system:admin")])];
     status := {| conditions := JList []; objects := objs |} |}.

(** The instance of the module's documentation before its migration: a
    Secret, a Deployment and a Route recorded at [v1]. *)
Definition demo : TemplateInstance :=
  instance_of "demo" "test"
    (Some [object_of "Secret" "v1" "secret";
           object_of "Deployment" "apps/v1" "deployment";
           object_of "Route" "v1" "route"]).

(** An instance with two stale references. *)
Definition twice : TemplateInstance :=
  instance_of "twice" "test"
    (Some [object_of "Route" "v1" "route";
           object_of "Build" "v1" "build"]).

Definition no_objects : TemplateInstance := instance_of "bare" "other" None.

Definition empty_world {Cluster} (c : Cluster) : World Cluster :=
  Build_World c [].

(** ** Runs on the list cluster *)

(** The outcome holds a body of the instance [ti]. *)
Definition records (results : Results) (ti : TemplateInstance) : Prop :=
  exists body, result results = Body body /\ same_instance body ti = true.

Definition listing0 : TemplateInstanceList :=
  {| items := [demo; twice; no_objects] |}.

Definition world0 : World (list TemplateInstance) :=
  empty_world [demo; twice; no_objects].

Definition self0 : Self (list TemplateInstance) :=
  module_self store_resource None false.

Definition check0 : Self (list TemplateInstance) :=
  module_self store_resource None true.

(** The run of [perform_migrations] over [listing0], evaluated. *)
Definition run0 : Outcome (Results * TemplateInstanceList)
                  * World (list TemplateInstance) :=
  Eval vm_compute in perform_migrations self0 store_resource listing0 world0.

Definition results0 : Results :=
  Eval vm_compute in
    match run0 with
    | (Returned (results, _), _) => results
    | _ => {| changed := false; result := EmptyList |}
    end.

Definition listing0' : TemplateInstanceList :=
  Eval vm_compute in
    match run0 with
    | (Returned (_, templateinstances), _) => templateinstances
    | _ => listing0
    end.

Definition world0' : World (list TemplateInstance) :=
  Eval vm_compute in snd run0.

Definition demo_objects : list TemplateInstanceObject :=
  [object_of "Secret" "v1" "secret";
   object_of "Deployment" "apps/v1" "deployment";
   object_of "Route" "v1" "route"].

(** ** The argument specification *)

(** [d.update(e)]: every key of [e] is set in [d]. *)
Definition update (d e : gmap string json) : gmap string json := e ∪ d.

(** [argspec()].  The three specifications it starts from are imported from
    the kubernetes.core collection and are parameters here;
    [dict(type='str')] is the document with the one key [type]. *)
Definition argspec (AUTH_ARG_SPEC WAIT_ARG_SPEC RESOURCE_ARG_SPEC
                    : gmap string json) : gmap string json :=
  let argument_spec := ∅ in
  let argument_spec := update argument_spec AUTH_ARG_SPEC in
  let argument_spec := update argument_spec WAIT_ARG_SPEC in
  let argument_spec := update argument_spec RESOURCE_ARG_SPEC in
  <["namespace" := JDict [("type", JStr "str")]]> argument_spec.

(** The message of [patch_template_instance] for the body it could not
    patch. *)
Definition patch_failure (body : TemplateInstance) (exc : Exception)
  : Failure :=
  {| msg := "Failed to migrate TemplateInstance "
            +:+ meta_name (metadata body)
            +:+ " due to: " +:+ to_native exc;
     error := None; fail_status := None; reason := None |}.

(** The namespace a run lists: the parameter when it is true, none
    otherwise. *)
Definition listed_namespace {Cluster} (self : Self Cluster) : option string :=
  if truthy_namespace (params_namespace self) then params_namespace self
  else None.

(** A cluster that no call reaches. *)
Definition unreachable : Exception := OtherException "connection refused".

Definition unreachable_resource : Resource unit :=
  {| get _ c := (inl unreachable, c);
     status_patch _ c := (inl unreachable, c) |}.

(** ** The pass as a sequence of patches *)

(** Unfolds the operations of the monad down to the pairs they build. *)
Ltac run_monad :=
  unfold mbind, M_bind, bind, mret, M_ret, ret, fail_json, raise in *;
  cbn beta iota.

(** Unfolds the binds only. *)
Ltac unbind := unfold mbind, M_bind, bind in *.

Section Pass.

Context {Cluster : Type}.
Implicit Types (self : Self Cluster) (resource : Resource Cluster).
Implicit Types (w : World Cluster) (ti : TemplateInstance).
Implicit Types (results : Results) (obj : TemplateInstanceObject).
Implicit Types (pre suf objs : list TemplateInstanceObject).
Implicit Types (tis bodies : list TemplateInstance).

Lemma send_all_app self resource bodies1 bodies2 results w :
  send_all self resource (bodies1 ++ bodies2) results w
  = (results' ← send_all self resource bodies1 results;
     send_all self resource bodies2 results') w.
Proof.
  revert results w.
  induction bodies1 as [|b bs IH]; intros results w; [reflexivity|].
  simpl. run_monad.
  destruct (check_mode self).
  - apply IH.
  - destruct (patch_template_instance resource b w) as [[r|f|exc] w1];
      [apply IH | reflexivity | reflexivity].
Qed.

Lemma with_objects_id ti : with_objects (objects (status ti)) ti = ti.
Proof. by destruct ti as [? ? ? ? []]. Qed.

Lemma migrated_stale obj : stale obj = false -> migrated obj = obj.
Proof.
  unfold stale, migrated. destruct (transforms !! kind (ref obj)); [|done].
  by intros ->.
Qed.

(** One iteration of the inner loop, at the entry that follows [pre]. *)
Lemma migrate_object_at self resource ti pre obj suf results w :
  migrate_object self resource (length pre)
    (with_objects (Some (pre ++ obj :: suf)) ti, results) w
  = (results' ←
       send_all self resource
         (if stale obj
          then [with_objects (Some (pre ++ migrated obj :: suf)) ti] else [])
         results;
     ret (with_objects (Some ((pre ++ [migrated obj]) ++ suf)) ti, results')) w.
Proof.
  unfold migrate_object, stale, migrated. cbn [status objects with_objects].
  cbn [mbind option_bind]. rewrite list_lookup_middle by done.
  rewrite <- (assoc_L (++)). cbn [app].
  destruct (transforms !! kind (ref obj)) as [target|]; [|done].
  case_bool_decide; [|done].
  unfold set_object_apiVersion. cbn [status objects with_objects fmap option_fmap option_map].
  rewrite alter_app_r_alt by done. rewrite Nat.sub_diag. cbn [alter list_alter].
  cbn [send_all]. run_monad.
  destruct (check_mode self); [done|].
  by destruct (patch_template_instance resource _ w) as [[r|f|exc] w1].
Qed.

(** The inner loop from the entry that follows [pre] to the end. *)
Lemma inner_loop_from self resource ti suf : forall pre results w,
  for_each (migrate_object self resource) (seq (length pre) (length suf))
    (with_objects (Some (pre ++ suf)) ti, results) w
  = (results' ← send_all self resource (bodies_from ti pre suf) results;
     ret (with_objects (Some (pre ++ (migrated <$> suf))) ti, results')) w.
Proof.
  induction suf as [|obj suf IH]; intros pre results w; [done|].
  cbn [length seq for_each bodies_from fmap list_fmap].
  unbind. rewrite migrate_object_at. unbind. rewrite send_all_app. unbind.
  destruct (send_all self resource _ results w) as [[r|f|exc] w1];
    [|done|done].
  cbn [mret M_ret ret].
  specialize (IH (pre ++ [migrated obj]) r w1).
  rewrite length_app, Nat.add_1_r in IH. rewrite IH.
  unbind. rewrite <- (assoc_L (++)). done.
Qed.

(** The outer loop body: the patches of the instance, then the instance
    with every stale entry rewritten. *)
Lemma migrate_instance_sends self resource ti results w :
  migrate_instance self resource ti results w
  = (results' ← send_all self resource (instance_bodies ti) results;
     ret (migrated_instance ti, results')) w.
Proof.
  unfold migrate_instance, instance_bodies, migrated_instance.
  destruct (objects (status ti)) as [[|obj objs]|] eqn:E; [done| |done].
  cbn [truthy_objects default from_option id].
  rewrite <- (with_objects_id ti) at 1. rewrite E.
  apply (inner_loop_from self resource ti (obj :: objs) []).
Qed.

Lemma migrate_items_sends self resource tis : forall results w,
  migrate_items self resource tis results w
  = (results' ←
       send_all self resource (concat (instance_bodies <$> tis)) results;
     ret (migrated_instance <$> tis, results')) w.
Proof.
  induction tis as [|ti tis IH]; intros results w; [done|].
  cbn [migrate_items fmap list_fmap concat].
  unbind. rewrite migrate_instance_sends. unbind. rewrite send_all_app. unbind.
  destruct (send_all self resource (instance_bodies ti) results w)
    as [[r|f|exc] w1]; [|done|done].
  cbn [mret M_ret ret]. rewrite IH. unbind.
  by destruct (send_all self resource _ r w1) as [[r'|f|exc] w2].
Qed.

(** [perform_migrations] sends the bodies of the listed instances in order
    and leaves every instance rewritten. *)
Lemma perform_migrations_sends self resource templateinstances w :
  perform_migrations self resource templateinstances w
  = (results ←
       send_all self resource (all_bodies templateinstances) initial_results;
     ret (results,
          {| items := migrated_instance <$> items templateinstances |})) w.
Proof.
  unfold perform_migrations, all_bodies, initial_results.
  unbind. rewrite migrate_items_sends. unbind.
  by destruct (send_all self resource _ _ w) as [[r|f|exc] w1].
Qed.

(** *** What [send_all] does to the world *)

Lemma send_all_check self resource bodies results w :
  check_mode self = true ->
  send_all self resource bodies results w
  = (Returned (if nonempty bodies then set_changed true results else results),
     w).
Proof.
  intros Hc. revert results.
  induction bodies as [|b bs IH]; intros results; [done|].
  cbn [send_all nonempty]. rewrite Hc. unbind. cbn [mret M_ret ret].
  rewrite IH. by destruct bs.
Qed.

Lemma patch_template_instance_run resource b w :
  patch_template_instance resource b w
  = let '(reply, c) := status_patch resource b (cluster w) in
    let w' := Build_World c (calls w ++ [PatchCall b reply]) in
    match reply with
    | inr r => (Returned r, w')
    | inl exc =>
        (FailJson
           {| msg := "Failed to migrate TemplateInstance "
                     +:+ meta_name (metadata b)
                     +:+ " due to: " +:+ to_native exc;
              error := None; fail_status := None; reason := None |}, w')
    end.
Proof.
  unfold patch_template_instance, call_status_patch. unbind.
  by destruct (status_patch resource b (cluster w)) as [[exc|r] c].
Qed.

(** A pass that returns has had every patch answered; the log grew by the
    patches of the bodies, in order, and [results] holds the last answer. *)
Lemma send_all_returned self resource bodies : forall results w r w',
  check_mode self = false ->
  send_all self resource bodies results w = (Returned r, w') ->
  exists new,
    calls w' = calls w ++ new
    /\ patch_bodies new = bodies
    /\ length new = length bodies
    /\ Forall patch_answered new
    /\ result r = last_answer new (result results)
    /\ changed r = changed results || nonempty bodies.
Proof.
  induction bodies as [|b bs IH]; intros results w r w' Hc Hrun.
  - injection Hrun as <- <-. exists [].
    rewrite (right_id_L [] (++)), orb_false_r. by repeat split.
  - cbn [send_all] in Hrun. rewrite Hc in Hrun. unbind.
    rewrite patch_template_instance_run in Hrun.
    destruct (status_patch resource b (cluster w)) as [[exc|body] c];
      [done|].
    cbn [mret M_ret ret] in Hrun.
    apply IH in Hrun as (new & Hcalls & Hbodies & Hlen & Hans & Hres & Hch);
      [|done].
    exists (PatchCall b (inr body) :: new).
    cbn [calls] in Hcalls. rewrite <- (assoc_L (++)) in Hcalls.
    repeat split; [done|by cbn; f_equal|by cbn; f_equal|by constructor|done|].
    rewrite Hch. cbn. by rewrite orb_true_r.
Qed.


(** On a cluster that answers every patch, a pass returns. *)
Lemma send_all_returns self resource bodies :
  (forall b c, exists r c', status_patch resource b c = (inr r, c')) ->
  forall results w, exists r w',
    send_all self resource bodies results w = (Returned r, w').
Proof.
  intros Hok. induction bodies as [|b bs IH]; intros results w; [by eexists _, _|].
  cbn [send_all]. unbind. destruct (check_mode self); [apply IH|].
  rewrite patch_template_instance_run.
  destruct (Hok b (cluster w)) as (r & c' & ->). apply IH.
Qed.

(** Whatever its outcome, a pass makes patch calls only, with bodies it
    was given. *)
Lemma send_all_calls self resource bodies : forall results w out w',
  send_all self resource bodies results w = (out, w') ->
  exists new,
    calls w' = calls w ++ new
    /\ (forall b, b ∈ patch_bodies new -> b ∈ bodies)
    /\ list_calls new = [].
Proof.
  induction bodies as [|b bs IH]; intros results w out w' Hrun.
  - injection Hrun as <- <-. exists []. rewrite (right_id_L [] (++)).
    by repeat split.
  - cbn [send_all] in Hrun. unbind. destruct (check_mode self).
    + cbn [mret M_ret ret] in Hrun.
      apply IH in Hrun as (new & Hcalls & Hsub & Hlist).
      exists new. repeat split; [done| |done].
      intros b' Hb'. apply elem_of_cons. right. by apply Hsub.
    + rewrite patch_template_instance_run in Hrun.
      destruct (status_patch resource b (cluster w)) as [[exc|body] c].
      * injection Hrun as <- <-. exists [PatchCall b (inl exc)].
        split; [done|]. split; [|done].
        cbn. intros b' ->%list_elem_of_singleton.
        apply elem_of_cons. by left.
      * cbn [mret M_ret ret] in Hrun.
        apply IH in Hrun as (new & Hcalls & Hsub & Hlist).
        exists (PatchCall b (inr body) :: new).
        cbn [calls] in Hcalls. rewrite <- (assoc_L (++)) in Hcalls.
        repeat split; [done| |done].
        cbn. intros b' [->|Hb']%elem_of_cons; apply elem_of_cons;
          [by left|right; by apply Hsub].
Qed.

Lemma kept_or_migrated_refl objs : Forall2 kept_or_migrated objs objs.
Proof. induction objs; constructor; [by left|done]. Qed.

(** A body the inner loop sends is the instance with some of its entries
    rewritten and the others as they were. *)
Lemma bodies_from_elem ti suf : forall pre b,
  b ∈ bodies_from ti pre suf ->
  exists suf',
    b = with_objects (Some (pre ++ suf')) ti
    /\ Forall2 kept_or_migrated suf suf'.
Proof.
  induction suf as [|obj suf IH]; intros pre b Hb.
  - by apply elem_of_nil in Hb.
  - cbn [bodies_from] in Hb. apply elem_of_app in Hb as [Hb|Hb].
    + destruct (stale obj); [|by apply elem_of_nil in Hb].
      apply list_elem_of_singleton in Hb as ->.
      exists (migrated obj :: suf). split; [done|].
      constructor; [by right|apply kept_or_migrated_refl].
    + apply IH in Hb as (suf' & -> & Hall).
      exists (migrated obj :: suf'). rewrite <- (assoc_L (++)).
      split; [done|]. constructor; [by right|done].
Qed.

Lemma all_bodies_elem templateinstances b :
  b ∈ all_bodies templateinstances ->
  exists ti objs objs',
    ti ∈ items templateinstances
    /\ objects (status ti) = Some objs
    /\ b = with_objects (Some objs') ti
    /\ Forall2 kept_or_migrated objs objs'.
Proof.
  unfold all_bodies. rewrite list_elem_of_In, in_concat.
  intros (l & Hl & Hb). apply in_map_iff in Hl as (ti & <- & Hti).
  apply list_elem_of_In in Hb. unfold instance_bodies in Hb.
  destruct (objects (status ti)) as [objs|] eqn:Hobjs;
    [|by apply elem_of_nil in Hb].
  cbn [default from_option id] in Hb.
  apply bodies_from_elem in Hb as (objs' & -> & Hall).
  exists ti, objs, objs'. by rewrite list_elem_of_In.
Qed.

(** Whatever its outcome, a run makes patch calls only, each with the body
    of a listed instance in which some entries are rewritten; in check mode
    it makes none. *)
Lemma perform_migrations_calls self resource templateinstances w out w' :
  perform_migrations self resource templateinstances w = (out, w') ->
  exists new,
    calls w' = calls w ++ new
    /\ list_calls new = []
    /\ (check_mode self = true -> new = [])
    /\ forall b, b ∈ patch_bodies new ->
         exists ti objs objs',
           ti ∈ items templateinstances
           /\ objects (status ti) = Some objs
           /\ b = with_objects (Some objs') ti
           /\ Forall2 kept_or_migrated objs objs'.
Proof.
  rewrite perform_migrations_sends. unbind.
  destruct (send_all self resource _ _ w) as [o w1] eqn:Hrun.
  intros Hout. assert (w1 = w') as -> by (by destruct o; injection Hout).
  destruct (check_mode self) eqn:Hc.
  - rewrite send_all_check in Hrun by done. injection Hrun as _ <-.
    exists []. rewrite (right_id_L [] (++)). repeat split; [done..|].
    by intros b Hb%elem_of_nil.
  - apply send_all_calls in Hrun as (new & Hcalls & Hsub & Hlist).
    exists new. repeat split; [done..|].
    intros b Hb. by apply all_bodies_elem, Hsub.
Qed.

(** *** The bodies and the entries *)

Lemma stale_migrated obj : stale (migrated obj) = false.
Proof.
  unfold stale, migrated.
  destruct (transforms !! kind (ref obj)) as [target|] eqn:E; [|by rewrite E].
  case_bool_decide as Hne; cbn [ref kind apiVersion set_ref_apiVersion];
    rewrite E; apply bool_decide_eq_false.
  - by intros [].
  - by intros [].
Qed.

Lemma bodies_from_nonempty ti suf : forall pre,
  nonempty (bodies_from ti pre suf) = existsb stale suf.
Proof.
  induction suf as [|obj suf IH]; intros pre; [done|].
  cbn [bodies_from existsb]. destruct (stale obj); [done|]. apply IH.
Qed.

Lemma bodies_from_length ti suf : forall pre,
  length (bodies_from ti pre suf) = length (List.filter stale suf).
Proof.
  induction suf as [|obj suf IH]; intros pre; [done|].
  cbn [bodies_from List.filter]. rewrite length_app, IH.
  by destruct (stale obj).
Qed.

Lemma instance_bodies_nonempty ti :
  nonempty (instance_bodies ti) = has_stale ti.
Proof. apply bodies_from_nonempty. Qed.

Lemma all_bodies_nonempty templateinstances :
  nonempty (all_bodies templateinstances)
  = existsb has_stale (items templateinstances).
Proof.
  unfold all_bodies. induction (items templateinstances) as [|ti tis IH];
    [done|].
  cbn [fmap list_fmap concat existsb].
  rewrite <- instance_bodies_nonempty, <- IH.
  by destruct (instance_bodies ti).
Qed.

Lemma migrated_instance_objects ti objs :
  objects (status ti) = Some objs ->
  objects (status (migrated_instance ti)) = Some (migrated <$> objs).
Proof.
  unfold migrated_instance. intros E. rewrite E. by destruct objs.
Qed.

Lemma migrated_instance_no_objects ti :
  objects (status ti) = None -> migrated_instance ti = ti.
Proof. unfold migrated_instance. by intros ->. Qed.

Lemma migrated_instance_frame ti :
  ti_apiVersion (migrated_instance ti) = ti_apiVersion ti
  /\ ti_kind (migrated_instance ti) = ti_kind ti
  /\ metadata (migrated_instance ti) = metadata ti
  /\ spec (migrated_instance ti) = spec ti
  /\ conditions (status (migrated_instance ti)) = conditions (status ti).
Proof.
  unfold migrated_instance. by destruct (objects (status ti)) as [[|? ?]|].
Qed.

Lemma has_stale_migrated ti : has_stale (migrated_instance ti) = false.
Proof.
  unfold has_stale. destruct (objects (status ti)) as [objs|] eqn:E.
  - rewrite (migrated_instance_objects ti objs E). cbn [default from_option id].
    apply not_true_is_false. intros (obj & Hin & Hst)%existsb_exists.
    apply in_map_iff in Hin as (obj0 & <- & _).
    by rewrite stale_migrated in Hst.
  - by rewrite migrated_instance_no_objects, E.
Qed.

Lemma migrated_instance_fresh ti :
  has_stale ti = false -> migrated_instance ti = ti.
Proof.
  unfold has_stale, migrated_instance. intros Hst.
  destruct (objects (status ti)) as [[|obj objs]|] eqn:E; [done| |done].
  cbn [default from_option id] in Hst.
  rewrite <- (with_objects_id ti) at 2. rewrite E. do 2 f_equal.
  assert (Hall : Forall (fun o => stale o = false) (obj :: objs)).
  { apply Forall_forall. intros o Hin%list_elem_of_In.
    apply not_true_is_false. intros Ho.
    assert (existsb stale (obj :: objs) = true) as Hex
      by (apply existsb_exists; eauto).
    congruence. }
  clear Hst E. induction Hall as [|o l Ho _ IH]; [done|].
  cbn [fmap list_fmap]. by rewrite migrated_stale, IH.
Qed.

Lemma last_answer_snoc cs c d :
  last_answer (cs ++ [c]) d
  = match c with PatchCall _ (inr b) => Body b | _ => last_answer cs d end.
Proof. unfold last_answer. by rewrite foldl_app. Qed.

(** *** What a run that returns has done *)

Lemma perform_migrations_returned self resource templateinstances w
  results templateinstances' w' :
  perform_migrations self resource templateinstances w
  = (Returned (results, templateinstances'), w') ->
  templateinstances' = {| items := migrated_instance <$> items templateinstances |}
  /\ changed results = existsb has_stale (items templateinstances)
  /\ exists new,
       calls w' = calls w ++ new
       /\ Forall patch_answered new
       /\ length new = length (patch_bodies new)
       /\ patch_bodies new
          = (if check_mode self then [] else all_bodies templateinstances)
       /\ result results = last_answer new EmptyList
       /\ (check_mode self = true -> w' = w).
Proof.
  rewrite perform_migrations_sends. unbind.
  destruct (send_all self resource _ _ w) as [[r|f|exc] w1] eqn:Hrun; [|done..].
  cbn [mret M_ret ret]. intros [= <- <- <-]. split; [done|].
  destruct (check_mode self) eqn:Hc.
  - rewrite send_all_check in Hrun by done. injection Hrun as <- <-.
    split; [by rewrite all_bodies_nonempty; destruct (existsb _ _)|].
    exists []. rewrite (right_id_L [] (++)).
    by destruct (nonempty _).
  - apply send_all_returned in Hrun
      as (new & Hcalls & Hbodies & Hlen & Hans & Hres & Hch); [|done].
    split; [by rewrite Hch, all_bodies_nonempty|].
    exists new. rewrite Hbodies. by repeat split.
Qed.

(** A run returns in check mode, and on a cluster that answers every
    patch. *)
Lemma perform_migrations_returns self resource templateinstances w :
  check_mode self = true
  \/ (forall b c, exists r c', status_patch resource b c = (inr r, c')) ->
  exists results w',
    perform_migrations self resource templateinstances w
    = (Returned (results,
                 {| items := migrated_instance <$> items templateinstances |}),
       w').
Proof.
  intros Hok. rewrite perform_migrations_sends. unbind.
  destruct Hok as [Hc|Hok].
  - rewrite send_all_check by done. by eexists _, _.
  - destruct (send_all_returns self resource (all_bodies templateinstances)
                Hok initial_results w) as (r & w' & ->).
    by eexists _, _.
Qed.

End Pass.

(** ** Properties of the migration pass *)

Lemma transforms_lookup (k v : string) :
  transforms !! k = Some v <->
  (k = "Build" /\ v = "build.openshift.io/v1.Build")
  \/ (k = "BuildConfig" /\ v = "build.openshift.io/v1.BuildConfig")
  \/ (k = "DeploymentConfig" /\ v = "apps.openshift.io/v1.DeploymentConfig")
  \/ (k = "Route" /\ v = "route.openshift.io/v1.Route").
Proof.
  unfold transforms. split.
  - rewrite !lookup_insert. repeat case_decide; subst;
      rewrite ?lookup_empty; intros [= <-]; tauto.
  - intros [[-> ->]|[[-> ->]|[[-> ->]|[-> ->]]]]; reflexivity.
Qed.

Section Claims.

Context {Cluster : Type}.
Implicit Types (self : Self Cluster) (resource : Resource Cluster).
Implicit Types (w : World Cluster) (ti : TemplateInstance).
Implicit Types (results : Results) (obj : TemplateInstanceObject).
Implicit Types (objs : list TemplateInstanceObject).
Implicit Types (templateinstances : TemplateInstanceList).

(** Where an entry of a listed instance is after a run that returned. *)
Lemma entry_after_run self resource templateinstances w results
  templateinstances' w' n ti objs :
  perform_migrations self resource templateinstances w
  = (Returned (results, templateinstances'), w') ->
  items templateinstances !! n = Some ti ->
  objects (status ti) = Some objs ->
  items templateinstances' !! n = Some (migrated_instance ti)
  /\ objects (status (migrated_instance ti)) = Some (migrated <$> objs).
Proof.
  intros (-> & _)%perform_migrations_returned Hn Hobjs. split.
  - cbn [items]. by rewrite list_lookup_fmap, Hn.
  - by apply migrated_instance_objects.
Qed.

Lemma changed_of_stale self resource templateinstances w results
  templateinstances' w' ti obj :
  perform_migrations self resource templateinstances w
  = (Returned (results, templateinstances'), w') ->
  ti ∈ items templateinstances ->
  obj ∈ default [] (objects (status ti)) ->
  stale obj = true ->
  changed results = true.
Proof.
  intros (_ & -> & _)%perform_migrations_returned Hti Hobj Hst.
  apply existsb_exists. exists ti. split; [by apply list_elem_of_In|].
  apply existsb_exists. exists obj. split; [by apply list_elem_of_In|done].
Qed.

(** C1.  After a run that returned, every entry of [status.objects] of
    every listed instance is at its place; when its kind is a key of
    [transforms] and its [apiVersion] is not the value of the table, its
    [apiVersion] is that value, nothing else of it has changed and
    [results['changed']] is set; when its kind is not a key, or its
    [apiVersion] is the value already, the entry is as it was. *)
Theorem reference_rewritten_exactly_when_stale self resource
  templateinstances w results templateinstances' w' n ti objs i obj :
  perform_migrations self resource templateinstances w
  = (Returned (results, templateinstances'), w') ->
  items templateinstances !! n = Some ti ->
  objects (status ti) = Some objs ->
  objs !! i = Some obj ->
  exists ti' objs' obj',
    items templateinstances' !! n = Some ti'
    /\ objects (status ti') = Some objs'
    /\ objs' !! i = Some obj'
    /\ (forall target,
          transforms !! kind (ref obj) = Some target ->
          apiVersion (ref obj) ≠ target ->
          obj' = set_ref_apiVersion target obj
          /\ apiVersion (ref obj') = target
          /\ changed results = true)
    /\ (transforms !! kind (ref obj) = None -> obj' = obj)
    /\ (transforms !! kind (ref obj) = Some (apiVersion (ref obj)) ->
        obj' = obj).
Proof.
  intros Hrun Hn Hobjs Hi.
  destruct (entry_after_run _ _ _ _ _ _ _ _ _ _ Hrun Hn Hobjs) as [Hn' Hobjs'].
  exists (migrated_instance ti), (migrated <$> objs), (migrated obj).
  split; [done|]. split; [done|].
  split; [by rewrite list_lookup_fmap, Hi|].
  unfold migrated. split; [|split].
  - intros target Ht Hne. rewrite Ht, bool_decide_eq_true_2 by done.
    split; [done|]. split; [done|].
    eapply changed_of_stale; [done| | |].
    + by eapply list_elem_of_lookup_2.
    + rewrite Hobjs. by eapply list_elem_of_lookup_2.
    + unfold stale. rewrite Ht. by apply bool_decide_eq_true_2.
  - by intros ->.
  - intros ->. by rewrite bool_decide_eq_false_2 by (by intros []).
Qed.

Lemma migrated_fields obj :
  kind (ref (migrated obj)) = kind (ref obj)
  /\ name (ref (migrated obj)) = name (ref obj)
  /\ namespace (ref (migrated obj)) = namespace (ref obj)
  /\ uid (ref (migrated obj)) = uid (ref obj).
Proof.
  unfold migrated. destruct (transforms !! kind (ref obj)); [|done].
  by case_bool_decide.
Qed.

Lemma migrated_apiVersion obj :
  apiVersion (ref (migrated obj)) ≠ apiVersion (ref obj) ->
  exists target,
    transforms !! kind (ref obj) = Some target
    /\ apiVersion (ref obj) ≠ target
    /\ apiVersion (ref (migrated obj)) = target.
Proof.
  unfold migrated.
  destruct (transforms !! kind (ref obj)) as [target|]; [|done].
  case_bool_decide; [|done]. intros _. by exists target.
Qed.

(** C6.  A run that returned leaves as many instances as were listed, in
    their order, and in each of them everything but [status.objects] as it
    was; [status.objects] is missing if it was missing and has the same
    length otherwise, and entry by entry the kind, name, namespace and uid
    are the same, an [apiVersion] that differs is the table's value for a
    kind of the table whose old [apiVersion] was another one, and an entry
    whose kind is not in the table is the same entry. *)
Theorem pass_changes_only_stale_apiVersions self resource
  templateinstances w results templateinstances' w' :
  perform_migrations self resource templateinstances w
  = (Returned (results, templateinstances'), w') ->
  length (items templateinstances') = length (items templateinstances)
  /\ forall n ti ti',
       items templateinstances !! n = Some ti ->
       items templateinstances' !! n = Some ti' ->
       ti_apiVersion ti' = ti_apiVersion ti
       /\ ti_kind ti' = ti_kind ti
       /\ metadata ti' = metadata ti
       /\ spec ti' = spec ti
       /\ conditions (status ti') = conditions (status ti)
       /\ (objects (status ti) = None -> objects (status ti') = None)
       /\ forall objs,
            objects (status ti) = Some objs ->
            exists objs',
              objects (status ti') = Some objs'
              /\ length objs' = length objs
              /\ forall i obj obj',
                   objs !! i = Some obj ->
                   objs' !! i = Some obj' ->
                   kind (ref obj') = kind (ref obj)
                   /\ name (ref obj') = name (ref obj)
                   /\ namespace (ref obj') = namespace (ref obj)
                   /\ uid (ref obj') = uid (ref obj)
                   /\ (apiVersion (ref obj') ≠ apiVersion (ref obj) ->
                       exists target,
                         transforms !! kind (ref obj) = Some target
                         /\ apiVersion (ref obj) ≠ target
                         /\ apiVersion (ref obj') = target)
                   /\ (transforms !! kind (ref obj) = None -> obj' = obj).
Proof.
  intros Hrun.
  pose proof Hrun as (-> & _)%perform_migrations_returned.
  cbn [items]. split; [apply length_fmap|].
  intros n ti ti' Hn Hn'.
  rewrite list_lookup_fmap, Hn in Hn'. injection Hn' as <-.
  destruct (migrated_instance_frame ti) as (? & ? & ? & ? & ?).
  do 5 (split; [done|]). split.
  - intros Hnone. by rewrite migrated_instance_no_objects.
  - intros objs Hobjs. exists (migrated <$> objs).
    split; [by apply migrated_instance_objects|].
    split; [apply length_fmap|].
    intros i obj obj' Hi Hi'.
    rewrite list_lookup_fmap, Hi in Hi'. injection Hi' as <-.
    destruct (migrated_fields obj) as (? & ? & ? & ?).
    do 4 (split; [done|]). split; [apply migrated_apiVersion|].
    unfold migrated. by intros ->.
Qed.

Lemma migrated_unmapped obj :
  kind (ref obj) ≠ "Build" ->
  kind (ref obj) ≠ "BuildConfig" ->
  kind (ref obj) ≠ "DeploymentConfig" ->
  kind (ref obj) ≠ "Route" ->
  migrated obj = obj.
Proof.
  intros H1 H2 H3 H4. unfold migrated.
  destruct (transforms !! kind (ref obj)) as [target|] eqn:E; [|done].
  apply transforms_lookup in E.
  destruct E as [[E _]|[[E _]|[[E _]|[E _]]]]; congruence.
Qed.

(** C10.  [transforms] has the four entries Build, BuildConfig,
    DeploymentConfig and Route, each with a value of the form
    [group/v1.Kind], and no other.  So in every run an entry whose kind is
    none of the four is never rewritten: every patch the run sends, whatever
    its outcome, carries the entry at its place as it was, and so does the
    listing that a run that returns leaves. *)
Theorem only_the_four_kinds_rewritten self resource templateinstances w
  out w' :
  perform_migrations self resource templateinstances w = (out, w') ->
  (forall k v,
     transforms !! k = Some v <->
     (k = "Build" /\ v = "build.openshift.io/v1.Build")
     \/ (k = "BuildConfig" /\ v = "build.openshift.io/v1.BuildConfig")
     \/ (k = "DeploymentConfig"
         /\ v = "apps.openshift.io/v1.DeploymentConfig")
     \/ (k = "Route" /\ v = "route.openshift.io/v1.Route"))
  /\ size transforms = 4
  /\ (forall k v,
        transforms !! k = Some v ->
        exists group, v = group +:+ "/v1." +:+ k)
  /\ (forall results templateinstances' n ti objs i obj,
        out = Returned (results, templateinstances') ->
        items templateinstances !! n = Some ti ->
        objects (status ti) = Some objs ->
        objs !! i = Some obj ->
        kind (ref obj) ≠ "Build" ->
        kind (ref obj) ≠ "BuildConfig" ->
        kind (ref obj) ≠ "DeploymentConfig" ->
        kind (ref obj) ≠ "Route" ->
        exists ti' objs',
          items templateinstances' !! n = Some ti'
          /\ objects (status ti') = Some objs'
          /\ objs' !! i = Some obj)
  /\ exists new,
       calls w' = calls w ++ new
       /\ forall body,
            body ∈ patch_bodies new ->
            exists ti objs objs',
              ti ∈ items templateinstances
              /\ metadata body = metadata ti
              /\ objects (status ti) = Some objs
              /\ objects (status body) = Some objs'
              /\ forall i obj,
                   objs !! i = Some obj ->
                   kind (ref obj) ≠ "Build" ->
                   kind (ref obj) ≠ "BuildConfig" ->
                   kind (ref obj) ≠ "DeploymentConfig" ->
                   kind (ref obj) ≠ "Route" ->
                   objs' !! i = Some obj.
Proof.
  intros Hrun. split; [apply transforms_lookup|].
  split; [by vm_compute|]. split; [|split].
  - intros k v [[-> ->]|[[-> ->]|[[-> ->]|[-> ->]]]]%transforms_lookup.
    + by exists "build.openshift.io".
    + by exists "build.openshift.io".
    + by exists "apps.openshift.io".
    + by exists "route.openshift.io".
  - intros results templateinstances' n ti objs i obj -> Hn Hobjs Hi H1 H2 H3 H4.
    destruct (entry_after_run _ _ _ _ _ _ _ _ _ _ Hrun Hn Hobjs)
      as [Hn' Hobjs'].
    exists (migrated_instance ti), (migrated <$> objs).
    split; [done|]. split; [done|].
    rewrite list_lookup_fmap, Hi. cbn. by rewrite migrated_unmapped.
  - apply perform_migrations_calls in Hrun as (new & Hcalls & _ & _ & Hsent).
    exists new. split; [done|]. intros body Hbody.
    destruct (Hsent body Hbody) as (ti & objs & objs' & Hti & Hobjs & -> & Hall).
    exists ti, objs, objs'. do 4 (split; [done|]).
    intros i obj Hi H1 H2 H3 H4.
    destruct (Forall2_lookup_l _ _ _ _ _ Hall Hi) as (obj' & Hi' & [->| ->]);
      [done|].
    by rewrite migrated_unmapped in Hi'.
Qed.

(** C7.  After a run that returned, [results['changed']] is true if and
    only if some entry of some listed instance has another [apiVersion]
    than before the run. *)
Theorem changed_iff_some_reference_rewritten self resource
  templateinstances w results templateinstances' w' :
  perform_migrations self resource templateinstances w
  = (Returned (results, templateinstances'), w') ->
  changed results = true <->
  exists n ti ti' objs objs' i obj obj',
    items templateinstances !! n = Some ti
    /\ items templateinstances' !! n = Some ti'
    /\ objects (status ti) = Some objs
    /\ objects (status ti') = Some objs'
    /\ objs !! i = Some obj
    /\ objs' !! i = Some obj'
    /\ apiVersion (ref obj') ≠ apiVersion (ref obj).
Proof.
  intros Hrun.
  pose proof Hrun as (_ & Hch & _)%perform_migrations_returned.
  split.
  - rewrite Hch. intros (ti & Hti & Hst)%existsb_exists.
    apply list_elem_of_In, list_elem_of_lookup in Hti as [n Hn].
    unfold has_stale in Hst.
    destruct (objects (status ti)) as [objs|] eqn:Hobjs; [|done].
    cbn [default from_option id] in Hst.
    apply existsb_exists in Hst as (obj & Hobj & Hst).
    apply list_elem_of_In, list_elem_of_lookup in Hobj as [i Hi].
    destruct (entry_after_run _ _ _ _ _ _ _ _ _ _ Hrun Hn Hobjs)
      as [Hn' Hobjs'].
    exists n, ti, (migrated_instance ti), objs, (migrated <$> objs), i, obj,
      (migrated obj).
    do 5 (split; [done|]). split; [by rewrite list_lookup_fmap, Hi|].
    unfold stale in Hst. unfold migrated.
    destruct (transforms !! kind (ref obj)) as [target|]; [|done].
    rewrite Hst. apply bool_decide_eq_true_1 in Hst. by cbn.
  - intros (n & ti & ti' & objs & objs' & i & obj & obj' & Hn & Hn' & Hobjs
            & Hobjs' & Hi & Hi' & Hne).
    destruct (entry_after_run _ _ _ _ _ _ _ _ _ _ Hrun Hn Hobjs)
      as [Hn2 Hobjs2].
    rewrite Hn' in Hn2. injection Hn2 as ->.
    rewrite Hobjs' in Hobjs2. injection Hobjs2 as ->.
    rewrite list_lookup_fmap, Hi in Hi'. injection Hi' as <-.
    apply migrated_apiVersion in Hne as (target & Ht & Hne & _).
    eapply changed_of_stale; [done| | |].
    + by eapply list_elem_of_lookup_2.
    + rewrite Hobjs. by eapply list_elem_of_lookup_2.
    + unfold stale. rewrite Ht. by apply bool_decide_eq_true_2.
Qed.

Lemma migrated_instances_fresh (tis : list TemplateInstance) :
  existsb has_stale tis = false -> migrated_instance <$> tis = tis.
Proof.
  induction tis as [|ti tis IH]; [done|].
  cbn [existsb]. intros [Hti Htis]%orb_false_iff.
  cbn [fmap list_fmap]. rewrite migrated_instance_fresh by done.
  f_equal. by apply IH.
Qed.

(** A listing without a stale entry passes through unchanged, in either
    mode, without a call. *)
Lemma perform_migrations_fresh self resource templateinstances w :
  existsb has_stale (items templateinstances) = false ->
  perform_migrations self resource templateinstances w
  = (Returned (initial_results, templateinstances), w).
Proof.
  intros Hfresh. rewrite perform_migrations_sends.
  assert (all_bodies templateinstances = []) as ->.
  { pose proof (all_bodies_nonempty templateinstances) as Hne.
    rewrite Hfresh in Hne. by destruct (all_bodies templateinstances). }
  rewrite migrated_instances_fresh by done.
  by destruct templateinstances.
Qed.

(** C5.  What a run that returned leaves of the listing is a fixed point of
    the pass: another run over it, in check mode or not, on any cluster,
    returns with [changed] false and the empty result, leaves the listing as
    it is and makes no call. *)
Theorem second_pass_changes_nothing self resource templateinstances w
  results templateinstances' w' :
  perform_migrations self resource templateinstances w
  = (Returned (results, templateinstances'), w') ->
  forall self2 resource2 w2,
    perform_migrations self2 resource2 templateinstances' w2
    = (Returned ({| changed := false; result := EmptyList |},
                 templateinstances'), w2).
Proof.
  intros (-> & _)%perform_migrations_returned self2 resource2 w2.
  apply perform_migrations_fresh. cbn [items].
  apply not_true_is_false. intros (ti' & Hin & Hst)%existsb_exists.
  apply in_map_iff in Hin as (ti & <- & _).
  by rewrite has_stale_migrated in Hst.
Qed.

(** C8.  For an instance whose status has no [objects], or the empty list,
    the body of the outer loop returns: it leaves the instance and [results]
    as they are and makes no call. *)
Theorem instance_without_objects_skipped self resource ti results w :
  objects (status ti) = None \/ objects (status ti) = Some [] ->
  migrate_instance self resource ti results w = (Returned (ti, results), w).
Proof.
  unfold migrate_instance. by intros [-> | ->].
Qed.

Lemma last_answer_last (new : list Call) (d : ResultValue) :
  Forall patch_answered new ->
  last_answer new d
  = match last new with
    | Some (PatchCall _ (inr body)) => Body body
    | _ => d
    end.
Proof.
  induction new as [|c new IH] using rev_ind; [done|].
  intros Hall. apply Forall_app in Hall as [_ Hc].
  rewrite Forall_singleton in Hc.
  rewrite last_answer_snoc, last_snoc.
  by destruct c as [|b [|]]; cbn in Hc.
Qed.

(** C3.  A run that returned has made only patch calls, each answered with a
    body; [results['result']] is the body that answered the last of them,
    not a list, and the empty list when the run made no patch call. *)
Theorem result_is_last_patch_answer self resource templateinstances w
  results templateinstances' w' :
  perform_migrations self resource templateinstances w
  = (Returned (results, templateinstances'), w') ->
  exists new,
    calls w' = calls w ++ new
    /\ Forall patch_answered new
    /\ match last new with
       | Some (PatchCall _ (inr body)) => result results = Body body
       | Some _ => False
       | None => result results = EmptyList
       end.
Proof.
  intros (_ & _ & new & Hcalls & Hans & _ & _ & Hres & _)%perform_migrations_returned.
  exists new. split; [done|]. split; [done|].
  rewrite last_answer_last in Hres by done.
  destruct (last new) as [c|] eqn:Hlast; [|done].
  apply last_Some_elem_of in Hlast.
  rewrite Forall_forall in Hans. specialize (Hans c Hlast).
  by destruct c as [|b [|]]; cbn in Hans.
Qed.

(** C4, as the code has it.  In check mode a run returns and leaves the
    world as it was: no call is made and the cluster is the same.
    [results['changed']] is true exactly when some entry of some listed
    instance is stale, [results['result']] stays the empty list, and the
    rewritten instances are in the listing in memory only. *)
Theorem check_mode_pass self resource templateinstances w :
  check_mode self = true ->
  exists results,
    perform_migrations self resource templateinstances w
    = (Returned (results,
                 {| items := migrated_instance <$> items templateinstances |}),
       w)
    /\ result results = EmptyList
    /\ (changed results = true <->
        exists ti obj,
          ti ∈ items templateinstances
          /\ obj ∈ default [] (objects (status ti))
          /\ stale obj = true).
Proof.
  intros Hc.
  exists {| changed := existsb has_stale (items templateinstances);
            result := EmptyList |}.
  split; [|split; [done|]].
  - rewrite perform_migrations_sends. unbind.
    rewrite send_all_check by done. cbn [mret M_ret ret].
    rewrite all_bodies_nonempty.
    by destruct (existsb has_stale (items templateinstances)).
  - cbn [changed]. rewrite existsb_exists. split.
    + intros (ti & Hti & (obj & Hobj & Hst)%existsb_exists).
      exists ti, obj. by rewrite !list_elem_of_In.
    + intros (ti & obj & Hti & Hobj & Hst). exists ti.
      split; [by apply list_elem_of_In|].
      apply existsb_exists. exists obj. by rewrite <- list_elem_of_In.
Qed.

(** The listing call of a run with a namespace that fails with a
    [DynamicApiError] ends in [fail_json] with the status and the reason of
    the error, after the one call. *)
Lemma retrieve_scoped_failure self resource w exc_body exc_status exc_reason
  exc_text c :
  truthy_namespace (params_namespace self) = true ->
  get resource (params_namespace self) (cluster w)
  = (inl (DynamicApiError exc_body exc_status exc_reason exc_text), c) ->
  exists f,
    retrieve self resource w
    = (FailJson f,
       Build_World c
         (calls w ++ [ListCall (params_namespace self)
                        (inl (DynamicApiError exc_body exc_status exc_reason
                                exc_text))]))
    /\ fail_status f = Some (FInt exc_status)
    /\ reason f = Some (FStr exc_reason).
Proof.
  intros Hns Hget. unfold retrieve, call_get. rewrite Hns. unbind.
  rewrite Hget. by eexists.
Qed.

(** The listing call of a run without a namespace is outside any [try]:
    what it raises leaves the module. *)
Lemma retrieve_unscoped_failure self resource w exc c :
  truthy_namespace (params_namespace self) = false ->
  get resource None (cluster w) = (inl exc, c) ->
  retrieve self resource w
  = (Raised exc, Build_World c (calls w ++ [ListCall None (inl exc)])).
Proof.
  intros Hns Hget. unfold retrieve, call_get. rewrite Hns. unbind.
  by rewrite Hget.
Qed.

(** The patches of a run are as many as the stale entries of the listing. *)
Lemma all_bodies_length templateinstances :
  length (all_bodies templateinstances)
  = list_sum
      ((fun ti =>
          length (List.filter stale (default [] (objects (status ti)))))
       <$> items templateinstances).
Proof.
  unfold all_bodies. induction (items templateinstances) as [|ti tis IH];
    [done|].
  cbn [fmap list_fmap concat list_sum foldr].
  rewrite length_app, IH. f_equal. apply bodies_from_length.
Qed.

End Claims.

(** ** The runs on the list cluster, claim by claim *)

Lemma run0_returned :
  perform_migrations self0 store_resource listing0 world0
  = (Returned (results0, listing0'), world0').
Proof. by vm_compute. Qed.

(** The Route of [demo], third entry of the first instance of [listing0]. *)
Lemma reference_rewritten_exactly_when_stale_witness :
  exists ti' objs' obj',
    items listing0' !! 0 = Some ti'
    /\ objects (status ti') = Some objs'
    /\ objs' !! 2 = Some obj'
    /\ (forall target,
          transforms !! "Route" = Some target ->
          "v1" ≠ target ->
          obj' = set_ref_apiVersion target (object_of "Route" "v1" "route")
          /\ apiVersion (ref obj') = target
          /\ changed results0 = true)
    /\ (transforms !! "Route" = None -> obj' = object_of "Route" "v1" "route")
    /\ (transforms !! "Route" = Some "v1" ->
        obj' = object_of "Route" "v1" "route").
Proof.
  apply (reference_rewritten_exactly_when_stale self0 store_resource listing0
           world0 results0 listing0' world0' 0 demo demo_objects 2
           (object_of "Route" "v1" "route")).
  - vm_compute. reflexivity.
  - reflexivity.
  - reflexivity.
  - reflexivity.
Defined.

(** The run over [listing0] keeps the shape of its three instances. *)
Lemma pass_changes_only_stale_apiVersions_witness :
  length (items listing0') = length (items listing0)
  /\ forall n ti ti',
       items listing0 !! n = Some ti ->
       items listing0' !! n = Some ti' ->
       ti_apiVersion ti' = ti_apiVersion ti
       /\ ti_kind ti' = ti_kind ti
       /\ metadata ti' = metadata ti
       /\ spec ti' = spec ti
       /\ conditions (status ti') = conditions (status ti)
       /\ (objects (status ti) = None -> objects (status ti') = None)
       /\ forall objs,
            objects (status ti) = Some objs ->
            exists objs',
              objects (status ti') = Some objs'
              /\ length objs' = length objs
              /\ forall i obj obj',
                   objs !! i = Some obj ->
                   objs' !! i = Some obj' ->
                   kind (ref obj') = kind (ref obj)
                   /\ name (ref obj') = name (ref obj)
                   /\ namespace (ref obj') = namespace (ref obj)
                   /\ uid (ref obj') = uid (ref obj)
                   /\ (apiVersion (ref obj') ≠ apiVersion (ref obj) ->
                       exists target,
                         transforms !! kind (ref obj) = Some target
                         /\ apiVersion (ref obj) ≠ target
                         /\ apiVersion (ref obj') = target)
                   /\ (transforms !! kind (ref obj) = None -> obj' = obj).
Proof.
  apply (pass_changes_only_stale_apiVersions self0 store_resource listing0
           world0 results0 listing0' world0').
  vm_compute. reflexivity.
Defined.

(** The Secret and the Deployment of [demo] stay as they were in the run over [listing0]. *)
Lemma only_the_four_kinds_rewritten_witness :
  size transforms = 4
  /\ (forall n ti objs i obj,
        items listing0 !! n = Some ti ->
        objects (status ti) = Some objs ->
        objs !! i = Some obj ->
        kind (ref obj) ≠ "Build" ->
        kind (ref obj) ≠ "BuildConfig" ->
        kind (ref obj) ≠ "DeploymentConfig" ->
        kind (ref obj) ≠ "Route" ->
        exists ti' objs',
          items listing0' !! n = Some ti'
          /\ objects (status ti') = Some objs'
          /\ objs' !! i = Some obj)
  /\ exists new,
       calls world0' = calls world0 ++ new
       /\ forall body,
            body ∈ patch_bodies new ->
            exists ti objs objs',
              ti ∈ items listing0
              /\ metadata body = metadata ti
              /\ objects (status ti) = Some objs
              /\ objects (status body) = Some objs'
              /\ forall i obj,
                   objs !! i = Some obj ->
                   kind (ref obj) ≠ "Build" ->
                   kind (ref obj) ≠ "BuildConfig" ->
                   kind (ref obj) ≠ "DeploymentConfig" ->
                   kind (ref obj) ≠ "Route" ->
                   objs' !! i = Some obj.
Proof.
  assert (perform_migrations self0 store_resource listing0 world0
          = (Returned (results0, listing0'), world0')) as Hrun
    by (vm_compute; reflexivity).
  destruct (only_the_four_kinds_rewritten self0 store_resource listing0
              world0 (Returned (results0, listing0')) world0' Hrun)
    as (_ & Hsize & _ & Hother & Hsent).
  split; [exact Hsize|]. split; [|exact Hsent].
  intros n ti objs i obj.
  exact (Hother results0 listing0' n ti objs i obj eq_refl).
Defined.

(** The flag of the run over [listing0]. *)
Lemma changed_iff_some_reference_rewritten_witness :
  changed results0 = true <->
  exists n ti ti' objs objs' i obj obj',
    items listing0 !! n = Some ti
    /\ items listing0' !! n = Some ti'
    /\ objects (status ti) = Some objs
    /\ objects (status ti') = Some objs'
    /\ objs !! i = Some obj
    /\ objs' !! i = Some obj'
    /\ apiVersion (ref obj') ≠ apiVersion (ref obj).
Proof.
  apply (changed_iff_some_reference_rewritten self0 store_resource listing0
           world0 results0 listing0' world0').
  vm_compute. reflexivity.
Defined.

(** A second run over what the run over [listing0] left. *)
Lemma second_pass_changes_nothing_witness :
  perform_migrations self0 store_resource listing0' world0'
  = (Returned ({| changed := false; result := EmptyList |}, listing0'),
     world0').
Proof.
  apply (second_pass_changes_nothing self0 store_resource listing0 world0
           results0 listing0' world0').
  vm_compute. reflexivity.
Defined.

(** The instance [no_objects], whose status has no [objects]. *)
Lemma instance_without_objects_skipped_witness :
  migrate_instance self0 store_resource no_objects results0 world0'
  = (Returned (no_objects, results0), world0').
Proof.
  apply (instance_without_objects_skipped self0 store_resource no_objects
           results0 world0').
  left. reflexivity.
Defined.

(** The result of the run over [listing0], which patched three times. *)
Lemma result_is_last_patch_answer_witness :
  exists new,
    calls world0' = calls world0 ++ new
    /\ Forall patch_answered new
    /\ match last new with
       | Some (PatchCall _ (inr body)) => result results0 = Body body
       | Some _ => False
       | None => result results0 = EmptyList
       end.
Proof.
  apply (result_is_last_patch_answer self0 store_resource listing0 world0
           results0 listing0' world0').
  vm_compute. reflexivity.
Defined.

(** The run over [listing0] in check mode. *)
Lemma check_mode_pass_witness :
  exists results,
    perform_migrations check0 store_resource listing0 world0
    = (Returned (results, {| items := migrated_instance <$> items listing0 |}),
       world0)
    /\ result results = EmptyList
    /\ (changed results = true <->
        exists ti obj,
          ti ∈ items listing0
          /\ obj ∈ default [] (objects (status ti))
          /\ stale obj = true).
Proof.
  apply (check_mode_pass check0 store_resource listing0 world0).
  reflexivity.
Defined.

(** C4, as it is stated, fails: a run in check mode over the instance of the
    documentation, whose Route is stale, returns with [changed] true and the
    empty list as [result]; the outcome holds no body of the instance. *)
Lemma check_mode_outcome_holds_no_instance :
  perform_migrations check0 store_resource {| items := [demo] |}
    (empty_world [demo])
  = (Returned ({| changed := true; result := EmptyList |},
               {| items := [migrated_instance demo] |}),
     empty_world [demo])
  /\ has_stale demo = true
  /\ ~ records {| changed := true; result := EmptyList |} demo.
Proof.
  split; [by vm_compute|]. split; [by vm_compute|].
  by intros (body & Hbody & _).
Qed.

(** C2 on an instance with two stale references.  The run patches the one
    instance twice: first with the Route rewritten and the Build still at
    [v1], then with both rewritten. *)
Theorem two_stale_references_patched_twice :
  let run :=
    perform_migrations self0 store_resource {| items := [twice] |}
      (empty_world [twice]) in
  (exists results, fst run = Returned (results, {| items := [migrated_instance twice] |}))
  /\ patch_bodies (calls (snd run))
     = [with_objects
          (Some [object_of "Route" "route.openshift.io/v1.Route" "route";
                 object_of "Build" "v1" "build"]) twice;
        with_objects
          (Some [object_of "Route" "route.openshift.io/v1.Route" "route";
                 object_of "Build" "build.openshift.io/v1.Build" "build"])
          twice].
Proof.
  split; [|by vm_compute]. eexists. by vm_compute.
Qed.

(** C9 on a cluster that refuses the list call with a 403.  Without a
    namespace the error leaves the module uncaught, with no [fail_json];
    with the namespace [test] the run ends in [fail_json] with the status
    and the reason. *)
Theorem unscoped_list_failure_is_uncaught :
  execute_module (module_self refusing_resource None false) (empty_world ())
  = (Raised forbidden, Build_World () [ListCall None (inl forbidden)])
  /\ execute_module (module_self refusing_resource (Some "test") false)
       (empty_world ())
     = (FailJson
          {| msg := "Failed to retrieve TemplateInstances in namespace 'test': forbidden";
             error := Some (FInt 403);
             fail_status := Some (FInt 403);
             reason := Some (FStr "Forbidden") |},
        Build_World () [ListCall (Some "test") (inl forbidden)]).
Proof. split; by vm_compute. Qed.

(** ** More on the pass: failures, order and bodies of the patches *)

Section Patches.

Context {Cluster : Type}.
Implicit Types (self : Self Cluster) (resource : Resource Cluster).
Implicit Types (w : World Cluster) (ti : TemplateInstance).
Implicit Types (results : Results) (obj : TemplateInstanceObject).
Implicit Types (pre suf objs : list TemplateInstanceObject).
Implicit Types (tis bodies : list TemplateInstance).
Implicit Types (templateinstances : TemplateInstanceList).

(** A pass that ends in [fail_json] is outside check mode; it had its first
    patches answered and stopped at the one that raised. *)
Lemma send_all_failed self resource bodies : forall results w f w',
  send_all self resource bodies results w = (FailJson f, w') ->
  check_mode self = false
  /\ exists sent body exc,
       calls w' = calls w ++ sent ++ [PatchCall body (inl exc)]
       /\ Forall patch_answered sent
       /\ body ∈ bodies
       /\ f = patch_failure body exc.
Proof.
  induction bodies as [|b bs IH]; intros results w f w' Hrun; [done|].
  cbn [send_all] in Hrun. unbind. destruct (check_mode self) eqn:Hc.
  - cbn [mret M_ret ret] in Hrun. rewrite send_all_check in Hrun by done.
    done.
  - split; [done|]. rewrite patch_template_instance_run in Hrun.
    destruct (status_patch resource b (cluster w)) as [[exc|body] c].
    + injection Hrun as <- <-. exists [], b, exc.
      repeat split; [done|by apply elem_of_cons; left].
    + cbn [mret M_ret ret] in Hrun.
      apply IH in Hrun as (_ & sent & b' & exc & Hcalls & Hans & Hb' & ->).
      exists (PatchCall b (inr body) :: sent), b', exc.
      cbn [calls] in Hcalls. rewrite <- (assoc_L (++)) in Hcalls.
      repeat split; [done|by constructor|by apply elem_of_cons; right].
Qed.

Lemma bodies_from_metadata ti suf : forall pre,
  metadata <$> bodies_from ti pre suf
  = replicate (length (List.filter stale suf)) (metadata ti).
Proof.
  induction suf as [|obj suf IH]; intros pre; [done|].
  cbn [bodies_from List.filter]. rewrite fmap_app, IH.
  by destruct (stale obj).
Qed.

Lemma fmap_migrated_fresh objs :
  existsb stale objs = false -> migrated <$> objs = objs.
Proof.
  induction objs as [|obj objs IH]; [done|].
  cbn [existsb]. intros [Hobj Hobjs]%orb_false_iff.
  cbn [fmap list_fmap]. by rewrite migrated_stale, IH.
Qed.

(** The last body the inner loop sends has every entry rewritten. *)
Lemma bodies_from_last ti suf : forall pre,
  existsb stale suf = true ->
  last (bodies_from ti pre suf)
  = Some (with_objects (Some (pre ++ (migrated <$> suf))) ti).
Proof.
  induction suf as [|obj suf IH]; intros pre Hst; [done|].
  cbn [bodies_from fmap list_fmap].
  destruct (existsb stale suf) eqn:Hsuf.
  - specialize (IH (pre ++ [migrated obj]) eq_refl).
    rewrite <- (assoc_L (++)) in IH. cbn [app] in IH.
    pose proof (bodies_from_nonempty ti suf (pre ++ [migrated obj])) as Hne.
    rewrite Hsuf in Hne.
    destruct (bodies_from ti (pre ++ [migrated obj]) suf) as [|b bs];
      [done|].
    rewrite <- IH. apply last_app_cons.
  - cbn [existsb] in Hst. rewrite Hsuf, orb_false_r in Hst. rewrite Hst.
    pose proof (bodies_from_nonempty ti suf (pre ++ [migrated obj])) as Hne.
    rewrite Hsuf in Hne.
    destruct (bodies_from ti (pre ++ [migrated obj]) suf); [|done].
    cbn. by rewrite fmap_migrated_fresh.
Qed.

(** The bodies of the answered patches of a log, call by call. *)
Lemma patch_bodies_last (new : list Call) :
  Forall patch_answered new ->
  last (patch_bodies new)
  = last new ≫= (fun c => match c with
                          | PatchCall b _ => Some b
                          | _ => None
                          end).
Proof.
  induction new as [|c new IH] using rev_ind; [done|].
  intros Hall. apply Forall_app in Hall as [_ Hc].
  rewrite Forall_singleton in Hc.
  unfold patch_bodies. rewrite omap_app, last_snoc.
  destruct c as [|b [|]]; cbn in Hc; [done..|].
  cbn. by rewrite last_snoc.
Qed.

(** X1.  A run of [perform_migrations] that ends in [fail_json] is a run
    outside check mode that stopped at the first patch the cluster refused:
    the calls before it are answered patches, the refused patch is the last
    call, its body has the metadata of a listed instance, and the failure
    has the message that names that instance and the exception, and no
    [error], [status] or [reason]. *)
Theorem failed_run_stops_at_first_refused_patch self resource
  templateinstances w f w' :
  perform_migrations self resource templateinstances w = (FailJson f, w') ->
  check_mode self = false
  /\ exists sent body exc ti,
       calls w' = calls w ++ sent ++ [PatchCall body (inl exc)]
       /\ Forall patch_answered sent
       /\ ti ∈ items templateinstances
       /\ metadata body = metadata ti
       /\ msg f = "Failed to migrate TemplateInstance "
                  +:+ meta_name (metadata ti)
                  +:+ " due to: " +:+ to_native exc
       /\ error f = None /\ fail_status f = None /\ reason f = None.
Proof.
  rewrite perform_migrations_sends. unbind.
  destruct (send_all self resource _ _ w) as [[r|f0|exc0] w1] eqn:Hrun;
    [done| |done].
  intros [= -> ->].
  apply send_all_failed in Hrun
    as (Hc & sent & body & exc & Hcalls & Hans & Hbody & ->).
  split; [done|].
  apply all_bodies_elem in Hbody as (ti & objs & objs' & Hti & _ & -> & _).
  by exists sent, (with_objects (Some objs') ti), exc, ti.
Qed.


(** X3.  A run outside check mode that returns has patched the listed
    instances in their order, each one once for every stale entry it has:
    the metadata of the bodies it sent are the metadata of the instances,
    each repeated as often as the instance has stale entries. *)
Theorem patches_in_listing_order_per_stale_entry self resource
  templateinstances w results templateinstances' w' :
  check_mode self = false ->
  perform_migrations self resource templateinstances w
  = (Returned (results, templateinstances'), w') ->
  exists new,
    calls w' = calls w ++ new
    /\ length new = length (patch_bodies new)
    /\ metadata <$> patch_bodies new
       = concat
           ((fun ti =>
               replicate
                 (length
                    (List.filter
                       (fun obj =>
                          match transforms !! kind (ref obj) with
                          | Some target =>
                              bool_decide (apiVersion (ref obj) ≠ target)
                          | None => false
                          end)
                       (default [] (objects (status ti)))))
                 (metadata ti))
            <$> items templateinstances).
Proof.
  intros Hc (_ & _ & new & Hcalls & _ & Hlen & Hbodies & _)%perform_migrations_returned.
  exists new. split; [done|]. split; [done|].
  rewrite Hbodies, Hc. unfold all_bodies.
  induction (items templateinstances) as [|ti tis IH]; [done|].
  cbn [fmap list_fmap concat]. rewrite fmap_app. f_equal; [|apply IH].
  apply bodies_from_metadata.
Qed.

(** X4.  Outside check mode, the body of the outer loop on an instance with
    a stale entry, when it returns, has sent as its last patch the instance
    as it leaves it, with every stale entry rewritten, and
    [results['result']] is the answer to that patch. *)
Theorem last_patch_of_instance_carries_all_rewrites self resource ti results
  w ti' results' w' obj :
  check_mode self = false ->
  migrate_instance self resource ti results w
  = (Returned (ti', results'), w') ->
  obj ∈ default [] (objects (status ti)) ->
  stale obj = true ->
  exists new answer,
    calls w' = calls w ++ new
    /\ last new = Some (PatchCall ti' (inr answer))
    /\ result results' = Body answer
    /\ forall objs',
         objects (status ti') = Some objs' ->
         forall obj', obj' ∈ objs' -> stale obj' = false.
Proof.
  intros Hc Hrun Hobj Hst. rewrite migrate_instance_sends in Hrun. unbind.
  destruct (send_all self resource _ results w) as [[r|f0|exc0] w1] eqn:Hsend;
    [|done..].
  cbn [mret M_ret ret] in Hrun. injection Hrun as <- <- <-.
  apply send_all_returned in Hsend
    as (new & Hcalls & Hbodies & Hlen & Hans & Hres & _); [|done].
  assert (existsb stale (default [] (objects (status ti))) = true) as Hex.
  { apply existsb_exists. exists obj. by rewrite <- list_elem_of_In. }
  assert (last (patch_bodies new) = Some (migrated_instance ti)) as Hlast.
  { rewrite Hbodies. unfold instance_bodies, migrated_instance.
    destruct (objects (status ti)) as [[|o objs]|]; [done| |done].
    by rewrite bodies_from_last. }
  rewrite patch_bodies_last in Hlast by done.
  rewrite last_answer_last in Hres by done.
  destruct (last new) as [c|] eqn:Hc'; [|done].
  apply last_Some_elem_of in Hc' as Hin.
  rewrite Forall_forall in Hans. specialize (Hans c Hin).
  destruct c as [|b [|answer]]; cbn in Hans, Hlast; [done..|].
  injection Hlast as ->.
  exists new, answer. do 3 (split; [done|]).
  intros objs' Hobjs' obj' Hobj'.
  destruct (objects (status ti)) as [objs|] eqn:E; [|done].
  rewrite (migrated_instance_objects ti objs E) in Hobjs'.
  injection Hobjs' as <-.
  apply list_elem_of_fmap in Hobj' as (o & -> & _). apply stale_migrated.
Qed.

(** X5.  Whatever the outcome of a run, every body it sent in a patch is a
    listed instance as it was listed, resource version included, but for its
    entries: these are as many as listed, and each is the listed entry or the
    listed entry of a kind of the table with the table's value as
    [apiVersion] in place of another one. *)
Theorem every_patch_body_is_a_listed_instance self resource
  templateinstances w out w' :
  perform_migrations self resource templateinstances w = (out, w') ->
  exists new,
    calls w' = calls w ++ new
    /\ forall body,
         body ∈ patch_bodies new ->
         exists ti objs objs',
           ti ∈ items templateinstances
           /\ ti_apiVersion body = ti_apiVersion ti
           /\ ti_kind body = ti_kind ti
           /\ metadata body = metadata ti
           /\ spec body = spec ti
           /\ conditions (status body) = conditions (status ti)
           /\ objects (status ti) = Some objs
           /\ objects (status body) = Some objs'
           /\ length objs' = length objs
           /\ forall i obj obj',
                objs !! i = Some obj ->
                objs' !! i = Some obj' ->
                obj' = obj
                \/ exists target,
                     transforms !! kind (ref obj) = Some target
                     /\ apiVersion (ref obj) ≠ target
                     /\ obj' = set_ref_apiVersion target obj.
Proof.
  intros (new & Hcalls & _ & _ & Hsent)%perform_migrations_calls.
  exists new. split; [done|]. intros body Hbody.
  destruct (Hsent body Hbody) as (ti & objs & objs' & Hti & Hobjs & -> & Hall).
  exists ti, objs, objs'. do 8 (split; [done|]).
  split; [symmetry; by eapply Forall2_length|].
  intros i obj obj' Hi Hi'.
  destruct (Forall2_lookup_l _ _ _ _ _ Hall Hi) as (o & Ho & Hkept).
  rewrite Hi' in Ho. injection Ho as <-.
  destruct Hkept as [->| ->]; [by left|].
  unfold migrated.
  destruct (transforms !! kind (ref obj)) as [target|]; [|by left].
  case_bool_decide; [|by left]. right. by exists target.
Qed.

(** X6.  A run over a listing in which no entry is stale, the empty listing
    among them, returns in either mode with [changed] false and the empty
    result, leaves the listing as it is and makes no call. *)
Theorem listing_without_stale_entry_untouched self resource
  templateinstances w :
  (forall ti obj target,
     ti ∈ items templateinstances ->
     obj ∈ default [] (objects (status ti)) ->
     transforms !! kind (ref obj) = Some target ->
     apiVersion (ref obj) = target) ->
  perform_migrations self resource templateinstances w
  = (Returned ({| changed := false; result := EmptyList |},
               templateinstances), w).
Proof.
  intros Hfresh. apply perform_migrations_fresh.
  apply not_true_is_false. intros (ti & Hti & Hst)%existsb_exists.
  apply existsb_exists in Hst as (obj & Hobj & Hst).
  unfold stale in Hst.
  destruct (transforms !! kind (ref obj)) as [target|] eqn:E; [|done].
  apply bool_decide_eq_true_1 in Hst. apply Hst.
  by apply (Hfresh ti obj target); rewrite ?list_elem_of_In.
Qed.

(** X7.  The body of the outer loop only ever sets [results['changed']]:
    when it returns, the flag is true exactly when it was true before or
    the instance has a stale entry. *)
Theorem changed_flag_is_only_set self resource ti results w ti' results' w' :
  migrate_instance self resource ti results w
  = (Returned (ti', results'), w') ->
  changed results' = true <->
  changed results = true
  \/ exists obj target,
       obj ∈ default [] (objects (status ti))
       /\ transforms !! kind (ref obj) = Some target
       /\ apiVersion (ref obj) ≠ target.
Proof.
  intros Hrun. rewrite migrate_instance_sends in Hrun. unbind.
  destruct (send_all self resource _ results w) as [[r|f0|exc0] w1] eqn:Hsend;
    [|done..].
  cbn [mret M_ret ret] in Hrun. injection Hrun as <- <- <-.
  assert (changed r = changed results || has_stale ti) as ->.
  { rewrite <- instance_bodies_nonempty. destruct (check_mode self) eqn:Hc.
    - rewrite send_all_check in Hsend by done. injection Hsend as <- <-.
      destruct (nonempty (instance_bodies ti)); cbn;
        by rewrite ?orb_true_r, ?orb_false_r.
    - by apply send_all_returned in Hsend as (_ & _ & _ & _ & _ & _ & ->). }
  rewrite orb_true_iff. unfold has_stale. rewrite existsb_exists.
  split; (intros [Hch|Hst]; [by left|right]).
  - destruct Hst as (obj & Hobj & Hst). unfold stale in Hst.
    destruct (transforms !! kind (ref obj)) as [target|] eqn:E; [|done].
    exists obj, target. apply bool_decide_eq_true_1 in Hst.
    by rewrite list_elem_of_In.
  - destruct Hst as (obj & target & Hobj & Ht & Hne). exists obj.
    split; [by apply list_elem_of_In|].
    unfold stale. rewrite Ht. by apply bool_decide_eq_true_2.
Qed.

End Patches.

(** ** The run of the module *)

Section Execute.

Context {Cluster : Type}.
Implicit Types (self : Self Cluster) (resource : Resource Cluster).
Implicit Types (w : World Cluster) (results : Results).
Implicit Types (templateinstances : TemplateInstanceList).

Lemma send_all_check_mode self self' resource bodies : forall results w,
  check_mode self = check_mode self' ->
  send_all self resource bodies results w
  = send_all self' resource bodies results w.
Proof.
  induction bodies as [|b bs IH]; intros results w Hc; [done|].
  cbn [send_all]. unbind. rewrite <- Hc. destruct (check_mode self).
  - by apply IH.
  - destruct (patch_template_instance resource b w) as [[r|f|exc] w1];
      [by apply IH|done..].
Qed.

(** A run of [perform_migrations] reads nothing of [self] but the check
    mode. *)
Lemma perform_migrations_check_mode self self' resource templateinstances w :
  check_mode self = check_mode self' ->
  perform_migrations self resource templateinstances w
  = perform_migrations self' resource templateinstances w.
Proof.
  intros Hc. rewrite !perform_migrations_sends. unbind.
  by rewrite (send_all_check_mode self self').
Qed.

(** The listing that is answered. *)
Lemma retrieve_answered self resource w templateinstances c :
  get resource (listed_namespace self) (cluster w)
  = (inr templateinstances, c) ->
  retrieve self resource w
  = (Returned templateinstances,
     Build_World c
       (calls w ++ [ListCall (listed_namespace self) (inr templateinstances)])).
Proof.
  unfold retrieve, listed_namespace, call_get. unbind.
  destruct (truthy_namespace (params_namespace self)); by intros ->.
Qed.

(** The listing that raises: one call, and no listing. *)
Lemma retrieve_failed self resource w exc c :
  get resource (listed_namespace self) (cluster w) = (inl exc, c) ->
  exists out,
    retrieve self resource w
    = (out,
       Build_World c (calls w ++ [ListCall (listed_namespace self) (inl exc)]))
    /\ forall templateinstances, out <> Returned templateinstances.
Proof.
  unfold retrieve, listed_namespace, call_get. unbind.
  destruct (truthy_namespace (params_namespace self)); intros ->.
  - destruct exc; by eexists.
  - by eexists.
Qed.

(** X8.  The calls of a run of the module, whatever its outcome.  When
    [find_resource] fails the run ends in that failure without a call.
    Otherwise the run makes one list call, first, for the namespace of the
    parameters when that is a non-empty string and for all namespaces when
    not; the calls after it are patches, there are none in check mode, and
    none when the list call raised, in which case the run returns no
    result. *)
Theorem execute_module_calls self w out w' :
  execute_module self w = (out, w') ->
  match find_resource self "templateinstances" "template.openshift.io/v1" with
  | inl f => out = FailJson f /\ w' = w
  | inr resource =>
      exists reply c rest,
        get resource (listed_namespace self) (cluster w) = (reply, c)
        /\ calls w' = calls w ++ ListCall (listed_namespace self) reply :: rest
        /\ list_calls rest = []
        /\ (check_mode self = true -> rest = [] /\ cluster w' = c)
        /\ (forall exc,
              reply = inl exc ->
              rest = [] /\ cluster w' = c /\ forall r, out <> Returned r)
  end.
Proof.
  unfold execute_module. unbind.
  destruct (find_resource self _ _) as [f|resource]; cbn.
  { by intros [= <- <-]. }
  destruct (get resource (listed_namespace self) (cluster w)) as [reply c]
    eqn:Hget.
  intros Hrun. exists reply, c. destruct reply as [exc|templateinstances].
  - destruct (retrieve_failed self resource w exc c Hget) as (o & Hret & Hno).
    rewrite Hret in Hrun. exists [].
    assert (out = match o with
                  | Returned _ => out
                  | FailJson f => FailJson f
                  | Raised e => Raised e
                  end /\ w' = Build_World c
                    (calls w ++ [ListCall (listed_namespace self) (inl exc)]))
      as [Hout ->].
    { destruct o as [l| |]; [by destruct (Hno l)|by injection Hrun..]. }
    do 4 (split; [done|]). intros exc' _. do 2 (split; [done|]).
    intros r ->. destruct o as [l| |]; [by destruct (Hno l)|done..].
  - rewrite (retrieve_answered self resource w templateinstances c Hget)
      in Hrun.
    destruct (perform_migrations self resource templateinstances _)
      as [o w1] eqn:Hperf.
    assert (w1 = w') as ->.
    { destruct o as [[r l]| |]; by injection Hrun. }
    pose proof Hperf as Hsends.
    apply perform_migrations_calls in Hperf
      as (new & Hcalls & Hlist & Hcheck & _).
    cbn [calls] in Hcalls. rewrite <- (assoc_L (++)) in Hcalls.
    exists new. do 3 (split; [done|]). split; [|done].
    intros Hc. split; [by apply Hcheck|].
    rewrite perform_migrations_sends in Hsends. unbind.
    rewrite send_all_check in Hsends by done. cbn in Hsends.
    by injection Hsends as _ <-.
Qed.

(** X9.  A run whose namespace parameter is the empty string is the run
    without the parameter: it lists every namespace. *)
Theorem empty_namespace_lists_every_namespace self w :
  params_namespace self = Some "" ->
  execute_module self w
  = execute_module
      {| params_namespace := None; check_mode := check_mode self;
         find_resource := find_resource self |} w.
Proof.
  intros Hns.
  set (self' := {| params_namespace := None; check_mode := check_mode self;
                   find_resource := find_resource self |}).
  assert (forall resource w0,
            retrieve self resource w0 = retrieve self' resource w0) as Hret.
  { intros resource w0. unfold retrieve, self'. cbn [params_namespace].
    rewrite Hns. reflexivity. }
  unfold execute_module. unbind.
  change (find_resource self' "templateinstances" "template.openshift.io/v1")
    with (find_resource self "templateinstances" "template.openshift.io/v1").
  destruct (find_resource self _ _) as [f|resource]; [done|].
  cbn [mret M_ret ret]. rewrite Hret.
  destruct (retrieve self' resource w) as [[l|f|exc] w1]; [|done..].
  by rewrite (perform_migrations_check_mode self self').
Qed.

(** X10.  With a namespace, a list call that raises a [DynamicApiError]
    ends the run in [fail_json]: the message names the namespace and has the
    body of the error, [error] and [status] are its status and [reason] its
    reason; the list call is the only call. *)
Theorem scoped_list_api_error_fails self resource w ns exc_body exc_status
  exc_reason exc_text c :
  params_namespace self = Some ns ->
  ns ≠ "" ->
  find_resource self "templateinstances" "template.openshift.io/v1"
  = inr resource ->
  get resource (Some ns) (cluster w)
  = (inl (DynamicApiError exc_body exc_status exc_reason exc_text), c) ->
  execute_module self w
  = (FailJson
       {| msg := "Failed to retrieve TemplateInstances in namespace '"
                 +:+ ns +:+ "': " +:+ exc_body;
          error := Some (FInt exc_status);
          fail_status := Some (FInt exc_status);
          reason := Some (FStr exc_reason) |},
     Build_World c
       (calls w ++ [ListCall (Some ns)
                      (inl (DynamicApiError exc_body exc_status exc_reason
                              exc_text))])).
Proof.
  intros Hns Hne Hfind Hget. unfold execute_module, retrieve, call_get.
  unbind. rewrite Hfind, Hns. cbn.
  destruct ns as [|a ns]; [done|]. cbn. by rewrite Hget.
Qed.

(** X11.  With a namespace, a list call that raises any other exception
    ends the run in [fail_json] too: the message names the namespace and has
    the text of the exception, and [error], [status] and [reason] are empty
    strings. *)
Theorem scoped_list_other_error_fails self resource w ns exc_text c :
  params_namespace self = Some ns ->
  ns ≠ "" ->
  find_resource self "templateinstances" "template.openshift.io/v1"
  = inr resource ->
  get resource (Some ns) (cluster w) = (inl (OtherException exc_text), c) ->
  execute_module self w
  = (FailJson
       {| msg := "Failed to retrieve TemplateInstances in namespace '"
                 +:+ ns +:+ "': " +:+ exc_text;
          error := Some (FStr "");
          fail_status := Some (FStr "");
          reason := Some (FStr "") |},
     Build_World c
       (calls w ++ [ListCall (Some ns) (inl (OtherException exc_text))])).
Proof.
  intros Hns Hne Hfind Hget. unfold execute_module, retrieve, call_get.
  unbind. rewrite Hfind, Hns. cbn.
  destruct ns as [|a ns]; [done|]. cbn. by rewrite Hget.
Qed.

(** X12.  Without a namespace, or with the empty one, whatever the list
    call raises leaves [execute_module] as it was raised, after that one
    call: the run calls neither [fail_json] nor [exit_json]. *)
Theorem unscoped_list_error_leaves_the_module self resource w exc c :
  truthy_namespace (params_namespace self) = false ->
  find_resource self "templateinstances" "template.openshift.io/v1"
  = inr resource ->
  get resource None (cluster w) = (inl exc, c) ->
  execute_module self w
  = (Raised exc, Build_World c (calls w ++ [ListCall None (inl exc)])).
Proof.
  intros Hns Hfind Hget. unfold execute_module. unbind. rewrite Hfind. cbn.
  by rewrite (retrieve_unscoped_failure self resource w exc c).
Qed.

(** X13.  A run of the module that returns has found the resource and
    listed once, with an answer; the calls after the list call are answered
    patches; [changed] is true exactly when some entry of some listed
    instance is stale, and [result] is the answer to the last patch, or the
    empty list when there was none. *)
Theorem execute_module_returned self w results w' :
  execute_module self w = (Returned results, w') ->
  exists resource templateinstances c rest,
    find_resource self "templateinstances" "template.openshift.io/v1"
    = inr resource
    /\ get resource (listed_namespace self) (cluster w)
       = (inr templateinstances, c)
    /\ calls w'
       = calls w
         ++ ListCall (listed_namespace self) (inr templateinstances) :: rest
    /\ Forall patch_answered rest
    /\ (changed results = true <->
        exists ti obj target,
          ti ∈ items templateinstances
          /\ obj ∈ default [] (objects (status ti))
          /\ transforms !! kind (ref obj) = Some target
          /\ apiVersion (ref obj) ≠ target)
    /\ match last rest with
       | Some (PatchCall _ (inr body)) => result results = Body body
       | Some _ => False
       | None => result results = EmptyList
       end.
Proof.
  unfold execute_module. unbind.
  destruct (find_resource self _ _) as [f|resource]; cbn; [done|].
  destruct (get resource (listed_namespace self) (cluster w)) as [reply c]
    eqn:Hget.
  destruct reply as [exc|templateinstances].
  { destruct (retrieve_failed self resource w exc c Hget) as (o & -> & Hno).
    destruct o as [l| |]; [by destruct (Hno l)|done..]. }
  rewrite (retrieve_answered self resource w templateinstances c Hget).
  destruct (perform_migrations self resource templateinstances _)
    as [[[r l]|f|exc] w1] eqn:Hperf; [|done..].
  intros [= -> ->].
  apply perform_migrations_returned in Hperf
    as (_ & Hch & new & Hcalls & Hans & _ & _ & Hres & _).
  cbn [calls] in Hcalls. rewrite <- (assoc_L (++)) in Hcalls.
  exists resource, templateinstances, c, new. do 4 (split; [done|]). split.
  - rewrite Hch, existsb_exists. unfold has_stale. split.
    + intros (ti & Hti & (obj & Hobj & Hst)%existsb_exists).
      unfold stale in Hst.
      destruct (transforms !! kind (ref obj)) as [target|] eqn:E; [|done].
      apply bool_decide_eq_true_1 in Hst.
      exists ti, obj, target. by rewrite !list_elem_of_In.
    + intros (ti & obj & target & Hti & Hobj & Ht & Hne). exists ti.
      split; [by apply list_elem_of_In|].
      apply existsb_exists. exists obj. split; [by apply list_elem_of_In|].
      unfold stale. rewrite Ht. by apply bool_decide_eq_true_2.
  - rewrite last_answer_last in Hres by done.
    destruct (last new) as [call|] eqn:Hlast; [|done].
    apply last_Some_elem_of in Hlast.
    rewrite Forall_forall in Hans. specialize (Hans call Hlast).
    by destruct call as [|b [|]]; cbn in Hans.
Qed.

End Execute.

(** ** The argument specification *)

(** X14.  [argspec()] has the key [namespace] with the type [str], whatever
    the imported specifications say of that key; any other key has the value
    of the resource specification, else of the wait specification, else of
    the authentication specification, and is no key when it is in none. *)
Theorem argspec_lookup (AUTH_ARG_SPEC WAIT_ARG_SPEC RESOURCE_ARG_SPEC
                        : gmap string json) (k : string) :
  argspec AUTH_ARG_SPEC WAIT_ARG_SPEC RESOURCE_ARG_SPEC !! k
  = if decide (k = "namespace") then Some (JDict [("type", JStr "str")])
    else match RESOURCE_ARG_SPEC !! k with
         | Some v => Some v
         | None =>
             match WAIT_ARG_SPEC !! k with
             | Some v => Some v
             | None => AUTH_ARG_SPEC !! k
             end
         end.
Proof.
  unfold argspec, update. rewrite lookup_insert.
  case_decide as Hk; [by rewrite decide_True|].
  rewrite decide_False by done.
  rewrite !lookup_union, lookup_empty.
  destruct (RESOURCE_ARG_SPEC !! k), (WAIT_ARG_SPEC !! k),
    (AUTH_ARG_SPEC !! k); done.
Qed.

(** ** Runs of the module on the three clusters *)

(** The run over [demo] on the cluster that refuses every patch. *)
Lemma failed_run_stops_at_first_refused_patch_witness :
  exists sent body exc ti,
    [PatchCall (migrated_instance demo) (inl forbidden)]
    = [] ++ sent ++ [PatchCall body (inl exc)]
    /\ Forall patch_answered sent
    /\ ti ∈ [demo]
    /\ metadata body = metadata ti
    /\ "Failed to migrate TemplateInstance demo due to: 403 Forbidden"
       = "Failed to migrate TemplateInstance "
         +:+ meta_name (metadata ti) +:+ " due to: " +:+ to_native exc.
Proof.
  destruct (failed_run_stops_at_first_refused_patch
              (module_self refusing_resource None false) refusing_resource
              {| items := [demo] |} (empty_world ())
              (patch_failure (migrated_instance demo) forbidden)
              (Build_World () [PatchCall (migrated_instance demo)
                                 (inl forbidden)]))
    as (_ & sent & body & exc & ti & H1 & H2 & H3 & H4 & H5 & _).
  - vm_compute. reflexivity.
  - exists sent, body, exc, ti. exact (conj H1 (conj H2 (conj H3 (conj H4 H5)))).
Defined.

(** The three patches of the run over [listing0]: one for [demo], two for
    [twice]. *)
Lemma patches_in_listing_order_per_stale_entry_witness :
  exists new,
    calls world0' = calls world0 ++ new
    /\ length new = length (patch_bodies new)
    /\ metadata <$> patch_bodies new
       = [metadata demo; metadata twice; metadata twice].
Proof.
  apply (patches_in_listing_order_per_stale_entry self0 store_resource
           listing0 world0 results0 listing0' world0').
  - reflexivity.
  - vm_compute. reflexivity.
Defined.

(** The outer loop body on [twice]. *)
Lemma last_patch_of_instance_carries_all_rewrites_witness :
  exists ti' results' w',
    migrate_instance self0 store_resource twice initial_results
      (empty_world [twice])
    = (Returned (ti', results'), w')
    /\ exists new answer,
         calls w' = [] ++ new
         /\ last new = Some (PatchCall ti' (inr answer))
         /\ result results' = Body answer
         /\ forall objs',
              objects (status ti') = Some objs' ->
              forall obj', obj' ∈ objs' -> stale obj' = false.
Proof.
  eexists _, _, _. split.
  - vm_compute. reflexivity.
  - apply (last_patch_of_instance_carries_all_rewrites self0 store_resource
             twice initial_results (empty_world [twice]) _ _ _
             (object_of "Build" "v1" "build")).
    + reflexivity.
    + vm_compute. reflexivity.
    + apply elem_of_cons. right. apply elem_of_cons. left. reflexivity.
    + vm_compute. reflexivity.
Defined.

(** The bodies of the run over [listing0]. *)
Lemma every_patch_body_is_a_listed_instance_witness :
  exists new,
    calls world0' = calls world0 ++ new
    /\ forall body,
         body ∈ patch_bodies new ->
         exists ti objs objs',
           ti ∈ items listing0
           /\ ti_apiVersion body = ti_apiVersion ti
           /\ ti_kind body = ti_kind ti
           /\ metadata body = metadata ti
           /\ spec body = spec ti
           /\ conditions (status body) = conditions (status ti)
           /\ objects (status ti) = Some objs
           /\ objects (status body) = Some objs'
           /\ length objs' = length objs
           /\ forall i obj obj',
                objs !! i = Some obj ->
                objs' !! i = Some obj' ->
                obj' = obj
                \/ exists target,
                     transforms !! kind (ref obj) = Some target
                     /\ apiVersion (ref obj) ≠ target
                     /\ obj' = set_ref_apiVersion target obj.
Proof.
  apply (every_patch_body_is_a_listed_instance self0 store_resource listing0
           world0 (Returned (results0, listing0')) world0').
  vm_compute. reflexivity.
Defined.

(** A listing of an instance without objects and one with a Secret and a
    Route at the version of the table. *)
Lemma listing_without_stale_entry_untouched_witness :
  perform_migrations self0 store_resource
    {| items := [no_objects;
                 instance_of "plain" "test"
                   (Some [object_of "Secret" "v1" "secret";
                          object_of "Route" "route.openshift.io/v1.Route"
                            "route"])] |} world0
  = (Returned ({| changed := false; result := EmptyList |},
               {| items := [no_objects;
                            instance_of "plain" "test"
                              (Some [object_of "Secret" "v1" "secret";
                                     object_of "Route"
                                       "route.openshift.io/v1.Route"
                                       "route"])] |}), world0).
Proof.
  apply (listing_without_stale_entry_untouched self0 store_resource).
  intros ti obj target Hti Hobj Ht. cbn [items] in Hti.
  apply elem_of_cons in Hti as [->|Hti].
  - by apply elem_of_nil in Hobj.
  - apply list_elem_of_singleton in Hti as ->.
    cbn in Hobj. apply elem_of_cons in Hobj as [->|Hobj].
    + vm_compute in Ht. discriminate Ht.
    + apply list_elem_of_singleton in Hobj as ->.
      vm_compute in Ht. injection Ht as <-. reflexivity.
Defined.

(** The outer loop body on [demo], in check mode, with the flag unset. *)
Lemma changed_flag_is_only_set_witness :
  exists ti' results' w',
    migrate_instance check0 store_resource demo initial_results world0
    = (Returned (ti', results'), w')
    /\ (changed results' = true <->
        changed initial_results = true
        \/ exists obj target,
             obj ∈ default [] (objects (status demo))
             /\ transforms !! kind (ref obj) = Some target
             /\ apiVersion (ref obj) ≠ target).
Proof.
  eexists _, _, _. split.
  - vm_compute. reflexivity.
  - eapply (changed_flag_is_only_set check0 store_resource demo
              initial_results world0).
    vm_compute. reflexivity.
Defined.

(** The run of the module in check mode over the namespace [test]. *)
Lemma execute_module_calls_witness :
  exists out w',
    execute_module (module_self store_resource (Some "test") true) world0
    = (out, w')
    /\ exists reply c rest,
         get store_resource (Some "test") (cluster world0) = (reply, c)
         /\ calls w' = calls world0 ++ ListCall (Some "test") reply :: rest
         /\ list_calls rest = []
         /\ (true = true -> rest = [] /\ cluster w' = c)
         /\ (forall exc,
               reply = inl exc ->
               rest = [] /\ cluster w' = c /\ forall r, out <> Returned r).
Proof.
  destruct (execute_module (module_self store_resource (Some "test") true)
              world0) as [out w'] eqn:Hrun.
  exists out, w'. split; [reflexivity|].
  exact (execute_module_calls
           (module_self store_resource (Some "test") true) world0 out w' Hrun).
Defined.

(** The run with the empty string as namespace, on the list cluster. *)
Lemma empty_namespace_lists_every_namespace_witness :
  execute_module (module_self store_resource (Some "") false) world0
  = execute_module (module_self store_resource None false) world0.
Proof.
  apply (empty_namespace_lists_every_namespace
           (module_self store_resource (Some "") false) world0).
  reflexivity.
Defined.

(** The run over the namespace [test] on the cluster that answers 403. *)
Lemma scoped_list_api_error_fails_witness :
  execute_module (module_self refusing_resource (Some "test") false)
    (empty_world ())
  = (FailJson
       {| msg := "Failed to retrieve TemplateInstances in namespace '"
                 +:+ "test" +:+ "': " +:+ "forbidden";
          error := Some (FInt 403);
          fail_status := Some (FInt 403);
          reason := Some (FStr "Forbidden") |},
     Build_World ()
       ([] ++ [ListCall (Some "test") (inl forbidden)])).
Proof.
  apply (scoped_list_api_error_fails
           (module_self refusing_resource (Some "test") false)
           refusing_resource (empty_world ()) "test" "forbidden" 403
           "Forbidden" "403 Forbidden" ()).
  - reflexivity.
  - discriminate.
  - reflexivity.
  - reflexivity.
Defined.

(** The run over the namespace [test] on the cluster that no call
    reaches. *)
Lemma scoped_list_other_error_fails_witness :
  execute_module (module_self unreachable_resource (Some "test") false)
    (empty_world ())
  = (FailJson
       {| msg := "Failed to retrieve TemplateInstances in namespace '"
                 +:+ "test" +:+ "': " +:+ "connection refused";
          error := Some (FStr "");
          fail_status := Some (FStr "");
          reason := Some (FStr "") |},
     Build_World ()
       ([] ++ [ListCall (Some "test") (inl unreachable)])).
Proof.
  apply (scoped_list_other_error_fails
           (module_self unreachable_resource (Some "test") false)
           unreachable_resource (empty_world ()) "test" "connection refused"
           ()).
  - reflexivity.
  - discriminate.
  - reflexivity.
  - reflexivity.
Defined.

(** The run over all namespaces on the cluster that no call reaches. *)
Lemma unscoped_list_error_leaves_the_module_witness :
  execute_module (module_self unreachable_resource None false)
    (empty_world ())
  = (Raised unreachable,
     Build_World () ([] ++ [ListCall None (inl unreachable)])).
Proof.
  apply (unscoped_list_error_leaves_the_module
           (module_self unreachable_resource None false)
           unreachable_resource (empty_world ()) unreachable ()).
  - reflexivity.
  - reflexivity.
  - reflexivity.
Defined.

(** The run of the module over all namespaces of the list cluster. *)
Lemma execute_module_returned_witness :
  exists results w',
    execute_module self0 world0 = (Returned results, w')
    /\ exists resource templateinstances c rest,
         find_resource self0 "templateinstances" "template.openshift.io/v1"
         = inr resource
         /\ get resource (listed_namespace self0) (cluster world0)
            = (inr templateinstances, c)
         /\ calls w'
            = calls world0
              ++ ListCall (listed_namespace self0) (inr templateinstances)
                 :: rest
         /\ Forall patch_answered rest
         /\ (changed results = true <->
             exists ti obj target,
               ti ∈ items templateinstances
               /\ obj ∈ default [] (objects (status ti))
               /\ transforms !! kind (ref obj) = Some target
               /\ apiVersion (ref obj) ≠ target)
         /\ match last rest with
            | Some (PatchCall _ (inr body)) => result results = Body body
            | Some _ => False
            | None => result results = EmptyList
            end.
Proof.
  eexists _, _. split.
  - vm_compute. reflexivity.
  - eapply (execute_module_returned self0 world0).
    vm_compute. reflexivity.
Defined.
